(** * whatsapp-ai-bridge: a shallow embedding of [src/app.js]

    The bridge is one Node.js file.  Its handlers are embedded as Rocq
    functions over a small model of the JavaScript values they inspect:

    - [JS]      values, truthiness, property access, the string methods used;
    - [Eff]     a writer/exception monad for the calls a handler makes
                (webhook POST, [sock.sendMessage], logger) and for
                [TypeError]s, with [try]/[catch];
    - [Bridge]  the handlers of [app.js], in source order;
    - [Interleaving]  the [connection.update] callback with its suspension
                at [await QRCode.toDataURL(qr)].

    The message handlers and [/send] read no global after their first
    [await] and write none, so each of their runs is one function of its
    inputs.  The [connection.update] callback writes [currentQR] after an
    [await]: [Bridge.step] and [Bridge.run] are the schedules in which it
    resumes at once, [Interleaving.istep] and [Interleaving.irun] all of
    them. *)

From Stdlib Require Import String Ascii List ZArith Bool Lia NArith DecimalString.
Import ListNotations.
Local Open Scope string_scope.
Set Warnings "-register-all".

(* ================================================================== *)
(** ** JavaScript values *)
(* ================================================================== *)

Module JS.

(** A value as the handlers see it: what [JSON.parse] can produce, plus
    [undefined].  Numbers are the integers of magnitude at most [2^53],
    which [JSON.parse] reads exactly and [String] prints digit by digit;
    the handlers observe only their being zero or not.  A string is a
    sequence of code units below
    [0x100], one [ascii] each.  An object is the list of its own enumerable
    properties in [Object.keys] order. *)
Inductive value : Type :=
| JUndefined
| JNull
| JBool (b : bool)
| JNum (n : Z)
| JStr (s : string)
| JArr (items : list value)
| JObj (fields : list (string * value)).

(** [if (v)]: ToBoolean. *)
Definition truthy (v : value) : bool :=
  match v with
  | JUndefined | JNull => false
  | JBool b => b
  | JNum n => negb (n =? 0)%Z
  | JStr s => negb (s =? "")
  | JArr _ | JObj _ => true
  end.

Fixpoint lookup (k : string) (fields : list (string * value)) : option value :=
  match fields with
  | [] => None
  | (k', v) :: rest => if k' =? k then Some v else lookup k rest
  end.

(** [v.k] on a value that is neither [undefined] nor [null].  The handlers
    only read the names key, remoteJid, fromMe, id, message, messages, type,
    conversation, extendedTextMessage, imageMessage, caption, text, reply,
    response, data and to; none of them is an own or inherited property of a
    string, number, boolean or array, so those yield [undefined]. *)
Definition prop (v : value) (k : string) : value :=
  match v with
  | JObj fields => match lookup k fields with Some x => x | None => JUndefined end
  | _ => JUndefined
  end.

(** [v === 'lit'] *)
Definition is_str (v : value) (lit : string) : bool :=
  match v with
  | JStr s => s =? lit
  | _ => false
  end.

(** [Object.keys(v)[0]] for an object, array or string [v]. *)
Definition first_key (v : value) : value :=
  match v with
  | JObj ((k, _) :: _) => JStr k
  | JArr (_ :: _) => JStr "0"
  | JStr (String _ _) => JStr "0"
  | _ => JUndefined
  end.

(** [v[0]] on a value that is neither [undefined] nor [null]. *)
Definition index0 (v : value) : value :=
  match v with
  | JArr (x :: _) => x
  | JStr (String c _) => JStr (String c "")
  | JObj fields => match lookup "0" fields with Some x => x | None => JUndefined end
  | _ => JUndefined
  end.

(** *** String methods *)

(** WhiteSpace and LineTerminator code units below [0x100]:
    TAB, LF, VT, FF, CR, SP and NBSP. *)
Definition is_ws (c : ascii) : bool :=
  let n := N_of_ascii c in
  ((9 <=? n) && (n <=? 13) || (n =? 32) || (n =? 160))%N.

Fixpoint trimStart (s : string) : string :=
  match s with
  | "" => ""
  | String c rest => if is_ws c then trimStart rest else s
  end.

Fixpoint trimEnd (s : string) : string :=
  match s with
  | "" => ""
  | String c rest =>
      let r := trimEnd rest in
      if is_ws c && (r =? "") then "" else String c r
  end.

(** [s.trim()] *)
Definition trim (s : string) : string := trimEnd (trimStart s).

Fixpoint drop (n : nat) (s : string) : string :=
  match n, s with
  | O, _ => s
  | S _, "" => ""
  | S n', String _ rest => drop n' rest
  end.

(** [s.replace(pat, repl)] with a string pattern: the first occurrence
    only.  [repl] is inserted as it is (the handlers pass [''], which has
    no [$] pattern). *)
Fixpoint replace (pat repl s : string) {struct s} : string :=
  if prefix pat s then repl ++ drop (String.length pat) s
  else match s with
       | "" => ""
       | String c rest => String c (replace pat repl rest)
       end.

(** [s.includes(pat)] *)
Fixpoint includes (pat s : string) {struct s} : bool :=
  if prefix pat s then true
  else match s with
       | "" => false
       | String _ rest => includes pat rest
       end.

(** [items.includes(x)] for a string [x]: some element is that string. *)
Definition arr_includes (x : string) (items : list value) : bool :=
  existsb (fun v => is_str v x) items.

(** [String(v)], the conversion inside a template literal.  An array is
    joined with commas, [null] and [undefined] elements giving the empty
    string; an integer of magnitude at most [2^53] prints in decimal
    (larger numbers, which JavaScript rounds and from [1e21] on prints with
    an exponent, are outside the model). *)
Fixpoint toString (v : value) : string :=
  match v with
  | JUndefined => "undefined"
  | JNull => "null"
  | JBool b => if b then "true" else "false"
  | JNum n => NilZero.string_of_int (Z.to_int n)
  | JStr s => s
  | JObj _ => "[object Object]"
  | JArr items =>
      (fix join (l : list value) : string :=
         match l with
         | [] => ""
         | x :: rest =>
             let piece := match x with
                          | JUndefined | JNull => ""
                          | _ => toString x
                          end in
             match rest with
             | [] => piece
             | _ :: _ => piece ++ "," ++ join rest
             end
         end) items
  end.

(** No code unit of [s] is [c]. *)
Fixpoint free_of (c : ascii) (s : string) : bool :=
  match s with
  | "" => true
  | String d rest => negb (Ascii.eqb d c) && free_of c rest
  end.

(** First and last code unit of a string, for stating what [trim] leaves. *)
Definition head (s : string) : option ascii :=
  match s with "" => None | String c _ => Some c end.

Fixpoint last (s : string) : option ascii :=
  match s with
  | "" => None
  | String c "" => Some c
  | String _ rest => last rest
  end.


Definition is_trimmed (s : string) : Prop :=
  (forall c, head s = Some c -> is_ws c = false) /\
  (forall c, last s = Some c -> is_ws c = false).

End JS.

(* ================================================================== *)
(** ** Calls, log lines and exceptions of a handler *)
(* ================================================================== *)

Module Eff.
Import JS.

(** The body of the webhook call, [messageData] of [handleIncomingMessage]. *)
Record messageData : Type := {
  from : string;
  text : string;
  timestamp : string;
  messageId : value;
  messageType : string
}.

Inductive level : Type := Info | Warn | Error.

(** What a handler does to the outside, in order.  A log line is named by
    the text of its message, without the leading emoji. *)
Inductive effect : Type :=
| Post (url : string) (body : messageData)   (* axios.post(url, body, ...) *)
| SendMessage (jid : value) (content : value) (* sock.sendMessage(jid, { text: content }) *)
| Log (l : level) (line : string).            (* logger.info / warn / error *)

(** What is thrown: a [TypeError] of the engine, whose message text stands
    in for the engine's own wording, or the [Error] a rejected call
    carries. *)
Inductive exn : Type :=
| TypeError (message : string)
| Failure (message : string).

(** [error.message] *)
Definition message_of (e : exn) : string :=
  match e with TypeError m | Failure m => m end.

Inductive outcome (A : Type) : Type :=
| Value (a : A)
| Raise (e : exn).
Arguments Value {A} a.
Arguments Raise {A} e.

(** The effects performed so far, then a value or a thrown exception. *)
Definition M (A : Type) : Type := (list effect * outcome A)%type.

Definition ret {A} (a : A) : M A := ([], Value a).

Definition throw {A} (e : exn) : M A := ([], Raise e).

Definition emit (e : effect) : M unit := ([e], Value tt).

Definition bind {A B} (m : M A) (f : A -> M B) : M B :=
  match m with
  | (t, Value a) => let '(t', r) := f a in ((t ++ t')%list, r)
  | (t, Raise e) => (t, Raise e)
  end.

(** [try { m } catch (e) { h e }] *)
Definition try_catch {A} (m : M A) (h : exn -> M A) : M A :=
  match m with
  | (t, Raise e) => let '(t', r) := h e in ((t ++ t')%list, r)
  | done => done
  end.

Declare Scope eff_scope.
Delimit Scope eff_scope with eff.
Notation "x <- m ;; k" := (bind m (fun x => k))
  (at level 61, m at next level, right associativity) : eff_scope.
Notation "m ;;; k" := (bind m (fun _ => k))
  (at level 61, right associativity) : eff_scope.

(** [v.k], which throws on [undefined] and [null]. *)
Definition get (v : value) (k : string) : M value :=
  match v with
  | JUndefined | JNull =>
      throw (TypeError ("Cannot read properties of undefined or null, reading " ++ k))
  | _ => ret (prop v k)
  end.

(** The receiver of a call [v.method(...)] of a [String.prototype]
    method: any other value has no such method and the call throws. *)
Definition str_method (v : value) (method : string) : M string :=
  match v with
  | JStr s => ret s
  | JUndefined | JNull =>
      throw (TypeError ("Cannot read properties of undefined or null, reading "
                        ++ method))
  | _ => throw (TypeError (method ++ " is not a function"))
  end.

(** The answer of the webhook as axios sees it. *)
Inductive http_result : Type :=
| NetworkError (message : string)     (* no response: DNS, refused, reset *)
| Timeout                             (* no response within the 10000 ms *)
| Response (status : Z) (data : value).

(** What lies outside the process. *)
Record World : Type := {
  now : string;                                    (* new Date().toISOString() *)
  axios_post : string -> messageData -> http_result;
  sock_sendMessage : value -> value -> option string;
      (* [None]: the promise resolves; [Some m]: it rejects with [Error(m)] *)
  QRCode_toDataURL : string -> option string       (* [None]: it rejects *)
}.

End Eff.

(* ================================================================== *)
(** ** The handlers of [app.js] *)
(* ================================================================== *)

Module Bridge.
Import JS Eff.
Local Open Scope eff_scope.

(** [config.n8nWebhookUrl] *)
Definition n8nWebhookUrl : string :=
  "https://n8n-render-docker-hg4q.onrender.com/webhook/whatsapp-incoming".

(** [DisconnectReason.loggedOut] of the client library. *)
Definition loggedOut : Z := 401.

(** *** Connection: the [connection.update] handler and the timers *)

(** The globals [isConnected] and [currentQR], and the [setTimeout] calls
    that have not fired yet, each with its delay in milliseconds. *)
Record state : Type := {
  isConnected : bool;
  currentQR : option string;
  timers : list Z
}.

(** The three fields the handler destructures from [update];
    [statusCode] is [lastDisconnect?.error?.output?.statusCode]. *)
Record update : Type := {
  connection : option string;
  statusCode : option Z;
  qr : option string
}.

(** [statusCode !== DisconnectReason.loggedOut] *)
Definition shouldReconnect (code : option Z) : bool :=
  match code with
  | Some c => negb (c =? loggedOut)%Z
  | None => true
  end.

(** [if (qr) { try { currentQR = await QRCode.toDataURL(qr) } catch ... }]:
    the state once the awaited rendering has settled, from the state [st]
    the callback finds when it resumes. *)
Definition storeQR (w : World) (q : option string) (st : state) : state :=
  match q with
  | Some token =>
      if token =? "" then st
      else match QRCode_toDataURL w token with
           | Some url => {| isConnected := isConnected st;
                            currentQR := Some url;
                            timers := timers st |}
           | None => st
           end
  | None => st
  end.

(** The callback of [sock.ev.on('connection.update', ...)], from the point
    where it resumes after the [await] (from its start when [qr] is falsy
    and nothing is awaited); up to that point it writes no global. *)
Definition onConnectionUpdate (w : World) (u : update) (st : state) : state :=
  let st1 := storeQR w (qr u) st in
  match connection u with
  | Some c =>
      if c =? "close" then
        {| isConnected := false;
           currentQR := None;
           timers := if shouldReconnect (statusCode u)
                     then 5000%Z :: timers st1
                     else timers st1 |}
      else if c =? "open" then
        {| isConnected := true; currentQR := None; timers := timers st1 |}
      else st1
  | None => st1
  end.

(** [connectToWhatsApp()]: when the set-up throws, the [catch] schedules a
    retry in 10 seconds; otherwise a socket is created and the handlers are
    registered on it. *)
Definition connectToWhatsApp (setup_ok : bool) (st : state) : state :=
  if setup_ok then st
  else {| isConnected := isConnected st;
          currentQR := currentQR st;
          timers := 10000%Z :: timers st |}.

Fixpoint remove_nth {A} (i : nat) (l : list A) : list A :=
  match i, l with
  | _, [] => []
  | O, _ :: rest => rest
  | S i', x :: rest => x :: remove_nth i' rest
  end.

(** What the event loop delivers to the connection side: an update from a
    socket, whose callback here runs to its end before anything else, or
    the firing of the [i]-th pending timer, whose callback is
    [connectToWhatsApp]. *)
Inductive event : Type :=
| ConnectionUpdate (u : update)
| TimerFired (i : nat) (setup_ok : bool).

Definition step (w : World) (st : state) (e : event) : state :=
  match e with
  | ConnectionUpdate u => onConnectionUpdate w u st
  | TimerFired i setup_ok =>
      if (i <? List.length (timers st))%nat then
        connectToWhatsApp setup_ok
          {| isConnected := isConnected st;
             currentQR := currentQR st;
             timers := remove_nth i (timers st) |}
      else st
  end.

Definition run (w : World) (st : state) (es : list event) : state :=
  fold_left (step w) es st.

(** The globals at process start. *)
Definition initial : state :=
  {| isConnected := false; currentQR := None; timers := [] |}.

(** The events of the spec's connection state machine. *)
Definition Closed (code : option Z) : event :=
  ConnectionUpdate {| connection := Some "close"; statusCode := code; qr := None |}.

Definition Opened : event :=
  ConnectionUpdate {| connection := Some "open"; statusCode := None; qr := None |}.

Definition PairingChallengeIssued (token : string) : event :=
  ConnectionUpdate {| connection := None; statusCode := None; qr := Some token |}.

(** *** HTTP surface *)

Record response : Type := {
  status : Z;
  json : value
}.

Definition qr_value (q : option string) : value :=
  match q with Some url => JStr url | None => JNull end.

(** [app.get('/qr-status', ...)] *)
Definition qr_status (w : World) (st : state) : response :=
  {| status := 200;
     json := JObj [("connected", JBool (isConnected st));
                   ("qr", qr_value (currentQR st));
                   ("timestamp", JStr (now w))] |}.

(** [await sock.sendMessage(jid, { text })] *)
Definition call_sendMessage (w : World) (jid content : value) : M unit :=
  emit (SendMessage jid content) ;;;
  match sock_sendMessage w jid content with
  | None => ret tt
  | Some m => throw (Failure m)
  end.

(** [to.includes('@') ? to : `${to}@s.whatsapp.net`]; [to] is truthy. *)
Definition formatTo (to : value) : M value :=
  match to with
  | JStr s =>
      ret (if includes "@" s then to else JStr (s ++ "@s.whatsapp.net"))
  | JArr items =>
      ret (if arr_includes "@" items then to
           else JStr (toString to ++ "@s.whatsapp.net"))
  | _ => throw (TypeError "to.includes is not a function")
  end.

(** [app.post('/send', ...)] with [req.body] as parsed by [express.json()]. *)
Definition post_send (w : World) (st : state) (body : value)
  : list effect * response :=
  let attempt : M response :=
    to <- get body "to" ;;
    text <- get body "text" ;;
    if negb (isConnected st) then
      ret {| status := 503;
             json := JObj [("error", JStr "WhatsApp not connected");
                           ("status", JStr "disconnected")] |}
    else if negb (truthy to) || negb (truthy text) then
      ret {| status := 400;
             json := JObj [("error", JStr "Missing required fields: to, text")] |}
    else
      formattedTo <- formatTo to ;;
      call_sendMessage w formattedTo text ;;;
      _ <- str_method text "text.substring" ;;
      emit (Log Info "Message sent via /send endpoint:") ;;;
      ret {| status := 200;
             json := JObj [("success", JBool true);
                           ("message", JStr "Message sent successfully");
                           ("to", to);
                           ("timestamp", JStr (now w))] |}
  in
  match attempt with
  | (t, Value r) => (t, r)
  | (t, Raise e) =>
      ((t ++ [Log Error "Error sending message via /send endpoint:"])%list,
       {| status := 500;
          json := JObj [("error", JStr "Failed to send message");
                        ("details", JStr (message_of e))] |})
  end.

(** *** Messages: [messages.upsert], the webhook and the reply *)

(** [sendToN8n(messageData)]: one [axios.post]; axios resolves on a status
    in [200, 300) and rejects otherwise; the [catch] logs and returns
    [null]. *)
Definition sendToN8n (w : World) (md : messageData) : M value :=
  emit (Post n8nWebhookUrl md) ;;;
  match axios_post w n8nWebhookUrl md with
  | Response code data =>
      if (200 <=? code)%Z && (code <? 300)%Z then
        emit (Log Info "Message sent to n8n. Received response:") ;;;
        ret data
      else
        emit (Log Error "Failed to send message to n8n:") ;;;
        emit (Log Error "n8n Response Data:") ;;;
        ret JNull
  | NetworkError _ | Timeout =>
      emit (Log Error "Failed to send message to n8n:") ;;;
      ret JNull
  end.

(** [sendWhatsAppReply(to, text)]; it does not read [isConnected]. *)
Definition sendWhatsAppReply (w : World) (to text : value) : M unit :=
  try_catch
    (call_sendMessage w to text ;;;
     _ <- str_method text "text.substring" ;;
     emit (Log Info "Sent AI reply to WhatsApp:"))
    (fun _ => emit (Log Error "Failed to send reply to WhatsApp:")).

(** Lines 141-161 of [handleIncomingMessage], the spec's [resolve]:
    [responseText] for a webhook answer, [null] when nothing matched. *)
Definition resolve (n8nResponse : value) : value :=
  if truthy n8nResponse then
    if truthy (prop n8nResponse "reply") then prop n8nResponse "reply"
    else if truthy (prop n8nResponse "message") then prop n8nResponse "message"
    else if truthy (prop n8nResponse "text") then prop n8nResponse "text"
    else match n8nResponse with
         | JStr _ => n8nResponse
         | _ =>
             if truthy (prop n8nResponse "response") then prop n8nResponse "response"
             else if truthy (prop n8nResponse "data") then prop n8nResponse "data"
             else JNull
         end
  else JNull.

(** Lines 113-124: the text of a message of a recognized type, or [None]
    where the source returns. *)
Definition extractText (content messageType : value) : M (option value) :=
  if is_str messageType "conversation" then
    t <- get content "conversation" ;; ret (Some t)
  else if is_str messageType "extendedTextMessage" then
    ext <- get content "extendedTextMessage" ;;
    t <- get ext "text" ;; ret (Some t)
  else if is_str messageType "imageMessage" then
    img <- get content "imageMessage" ;;
    caption <- get img "caption" ;;
    if truthy caption then ret (Some caption) else ret None
  else ret None.

(** [from.replace('@s.whatsapp.net', '').replace('@c.us', '')] *)
Definition cleanFrom (sender : string) : string :=
  replace "@c.us" "" (replace "@s.whatsapp.net" "" sender).

(** Lines 112-134 of [handleIncomingMessage], the spec's [normalize]:
    the [messageData] built from a message, [None] where the source
    returns before building it. *)
Definition normalize (w : World) (message : value) : M (option messageData) :=
  key <- get message "key" ;;
  sender <- get key "remoteJid" ;;
  content <- get message "message" ;;
  let messageType := first_key (if truthy content then content else JObj []) in
  found <- extractText content messageType ;;
  match found with
  | None => ret None
  | Some t =>
      s <- str_method sender "from.replace" ;;
      body <- str_method t "text.trim" ;;
      id <- get key "id" ;;
      ret (Some {| from := cleanFrom s;
                   text := trim body;
                   timestamp := now w;
                   messageId := id;
                   messageType := match messageType with JStr k => k | _ => "" end |})
  end.

(** [handleIncomingMessage(message)]; [st] holds the globals at the time
    the reply is sent. *)
Definition handleIncomingMessage (w : World) (st : state) (message : value)
  : M unit :=
  try_catch
    (normalized <- normalize w message ;;
     match normalized with
     | None => ret tt
     | Some messageData =>
         emit (Log Info "Incoming message:") ;;;
         n8nResponse <- sendToN8n w messageData ;;
         (if truthy n8nResponse
          then emit (Log Info "Full n8n response:")
          else ret tt) ;;;
         let responseText := resolve n8nResponse in
         if truthy responseText then
           sendWhatsAppReply w (prop (prop message "key") "remoteJid") responseText
         else
           emit (Log Warn "No reply from n8n or invalid format. Response:")
     end)
    (fun _ => emit (Log Error "Error handling incoming message:")).

(** The callback of [sock.ev.on('messages.upsert', ...)]. *)
Definition onMessagesUpsert (w : World) (st : state) (m : value) : M unit :=
  messages <- get m "messages" ;;
  if negb (truthy messages) || negb (truthy (index0 messages)) then ret tt
  else
    let message := index0 messages in
    key <- get message "key" ;;
    fromMe <- get key "fromMe" ;;
    if negb (truthy fromMe) && is_str (prop m "type") "notify" then
      handleIncomingMessage w st message
    else ret tt.

(** The effects of a run, without its outcome. *)
Definition trace {A} (m : M A) : list effect := fst m.

Definition is_post (e : effect) : bool :=
  match e with Post _ _ => true | _ => false end.

Definition is_send (e : effect) : bool :=
  match e with SendMessage _ _ => true | _ => false end.

Definition is_log (l : level) (e : effect) : bool :=
  match e, l with
  | Log Info _, Info | Log Warn _, Warn | Log Error _, Error => true
  | _, _ => false
  end.

(** How many webhook calls, and how many sends, a trace holds. *)
Definition posts (t : list effect) : nat := List.length (filter is_post t).
Definition sends (t : list effect) : nat := List.length (filter is_send t).

(** The priority list in the spec's words: reply, message, text, the value
    itself when it is a string, response, data; the first candidate that
    is there wins.  A candidate is there when it is truthy. *)
Definition candidates (r : value) : list value :=
  [prop r "reply"; prop r "message"; prop r "text";
   match r with JStr _ => r | _ => JUndefined end;
   prop r "response"; prop r "data"].

Fixpoint first_truthy (vs : list value) : value :=
  match vs with
  | [] => JNull
  | v :: rest => if truthy v then v else first_truthy rest
  end.

Definition resolve_by_priority (r : value) : value :=
  if truthy r then first_truthy (candidates r) else JNull.

End Bridge.

(* ================================================================== *)
(** ** Notions used to state the properties *)
(* ================================================================== *)

Module Props.
Import JS Eff Bridge.

(** The webhook call failed: no response, or a status outside [200, 300). *)
Definition rejected (r : http_result) : bool :=
  match r with
  | NetworkError _ | Timeout => true
  | Response code _ => negb ((200 <=? code)%Z && (code <? 300)%Z)
  end.

(** The update leaves a freshly rendered QR in [currentQR]: it carries a
    token, the rendering succeeds, and it is not itself an open or close
    update (which would clear it again). *)
Definition stores_qr (w : World) (u : update) : bool :=
  match qr u with
  | Some token =>
      negb (token =? "")
      && match QRCode_toDataURL w token with Some _ => true | None => false end
      && match connection u with
         | Some c => negb (c =? "close") && negb (c =? "open")
         | None => true
         end
  | None => false
  end.

(** The status surface never shows a QR together with [connected: true]. *)
Definition qr_only_when_offline (st : state) : Prop :=
  isConnected st = true -> currentQR st = None.

(** The message type and text of a recognized message, as the three
    branches of [handleIncomingMessage] read them from [message.message]. *)
Definition recognized (content : value) (kind body : string) : Prop :=
  first_key content = JStr kind /\
  ((kind = "conversation" /\ prop content "conversation" = JStr body) \/
   (kind = "extendedTextMessage" /\
    prop (prop content "extendedTextMessage") "text" = JStr body) \/
   (kind = "imageMessage" /\
    prop (prop content "imageMessage") "caption" = JStr body /\ body <> "")).

(** A message type outside the three the handler knows. *)
Definition unrecognized (content : value) : Prop :=
  let messageType := first_key (if truthy content then content else JObj []) in
  is_str messageType "conversation" = false /\
  is_str messageType "extendedTextMessage" = false /\
  is_str messageType "imageMessage" = false.

End Props.

(** ** Concrete worlds and messages *)

Module Scenario.
Import JS Eff Bridge.

(** A world whose webhook always answers [answer] and whose socket answers
    every send with [sent]. *)
Definition world (answer : http_result) (sent : option string) : World :=
  {| now := "2024-05-01T12:00:00.000Z";
     axios_post := fun _ _ => answer;
     sock_sendMessage := fun _ _ => sent;
     QRCode_toDataURL := fun token => Some ("data:image/png;base64," ++ token) |}.

(** A message as the client library delivers it. *)
Definition envelope (jid : string) (fromMe : bool) (content : value) : value :=
  JObj [("key", JObj [("remoteJid", JStr jid);
                      ("fromMe", JBool fromMe);
                      ("id", JStr "3EB0A1")]);
        ("message", content)].

Definition upsert (messages : list value) : value :=
  JObj [("messages", JArr messages); ("type", JStr "notify")].

Definition connected : state :=
  {| isConnected := true; currentQR := None; timers := [] |}.

(** The webhook answers [{reply: "hi there"}] and every send goes through. *)
Definition plain : World :=
  world (Response 200 (JObj [("reply", JStr "hi there")])) None.

End Scenario.

(* ================================================================== *)
(** ** The rest of the HTTP surface and the status page *)
(* ================================================================== *)

Module Surface.
Import JS Eff Bridge.

(** [app.get('/health', ...)] *)
Definition health (w : World) (st : state) : response :=
  {| status := 200;
     json := JObj [("status", JStr "running");
                   ("whatsapp", JStr (if isConnected st then "connected"
                                      else "disconnected"));
                   ("timestamp", JStr (now w))] |}.

(** [app.get('/status', ...)]; [uptime] is what [process.uptime()] gives. *)
Definition get_status (w : World) (uptime : value) (st : state) : response :=
  {| status := 200;
     json := JObj [("connected", JBool (isConnected st));
                   ("timestamp", JStr (now w));
                   ("uptime", uptime)] |}.

(** What the page served at [/] shows: the content of [#status-container],
    whether [#qr-container] is displayed, and the [src] of [#qr-code]. *)
Inductive banner : Type :=
| Loading            (* the markup as served *)
| ConnectedBanner    (* "WhatsApp Connected!" *)
| ScanBanner         (* "Scan QR Code to Connect" *)
| GeneratingBanner   (* "Generating QR Code..." *)
| ErrorBanner.       (* "Error connecting to server" *)

Record page : Type := {
  shown : banner;
  qrDisplayed : bool;
  qrSrc : option value
}.

(** The page as served: the status is loading, the QR container hidden. *)
Definition served : page :=
  {| shown := Loading; qrDisplayed := false; qrSrc := None |}.

(** [checkStatus()] of the page script.  [fetched] is the parsed answer of
    [fetch('/qr-status')], [None] when the fetch or the parsing rejects.
    The [catch] replaces the status only. *)
Definition checkStatus (p : page) (fetched : option value) : page :=
  let failed := {| shown := ErrorBanner;
                   qrDisplayed := qrDisplayed p;
                   qrSrc := qrSrc p |} in
  match fetched with
  | None => failed
  | Some data =>
      match get data "connected" with
      | (_, Raise _) => failed
      | (_, Value connected) =>
          if truthy connected then
            {| shown := ConnectedBanner; qrDisplayed := false; qrSrc := qrSrc p |}
          else if truthy (prop data "qr") then
            {| shown := ScanBanner;
               qrDisplayed := true;
               qrSrc := Some (prop data "qr") |}
          else
            {| shown := GeneratingBanner; qrDisplayed := false; qrSrc := qrSrc p |}
      end
  end.

(** The page polls [/qr-status] and applies [checkStatus] to the answer. *)
Definition poll (w : World) (st : state) (p : page) : page :=
  checkStatus p (Some (json (qr_status w st))).

End Surface.

(* ================================================================== *)
(** ** The [connection.update] callback with its suspension *)
(* ================================================================== *)

Module Interleaving.
Import JS Eff Bridge Props.

(** [if (qr)]: the update carries a pairing token. *)
Definition carries_qr (u : update) : bool :=
  match qr u with
  | Some token => negb (token =? "")
  | None => false
  end.

(** The globals, and the callbacks suspended at
    [await QRCode.toDataURL(qr)], each with the update it was called
    with, oldest first. *)
Record session : Type := {
  globals : state;
  suspended : list update
}.

(** Process start: the globals as declared, nothing suspended. *)
Definition fresh : session :=
  {| globals := initial; suspended := [] |}.

(** What the event loop runs next on the connection side: the callback of
    an update a socket emits, the rest of the [i]-th suspended callback,
    or the callback of the [i]-th pending timer. *)
Inductive signal : Type :=
| Deliver (u : update)
| Resume (i : nat)
| Fire (i : nat) (setup_ok : bool).

(** A callback called with a token logs, prints the token and suspends at
    the [await], having written no global; its assignment to [currentQR]
    and its connection branches run when it resumes, on the globals as
    they are then.  A callback called without a token awaits nothing. *)
Definition istep (w : World) (s : session) (sig : signal) : session :=
  match sig with
  | Deliver u =>
      if carries_qr u then
        {| globals := globals s; suspended := (suspended s ++ [u])%list |}
      else
        {| globals := onConnectionUpdate w u (globals s);
           suspended := suspended s |}
  | Resume i =>
      match nth_error (suspended s) i with
      | Some u =>
          {| globals := onConnectionUpdate w u (globals s);
             suspended := remove_nth i (suspended s) |}
      | None => s
      end
  | Fire i setup_ok =>
      {| globals := step w (globals s) (TimerFired i setup_ok);
         suspended := suspended s |}
  end.

Definition irun (w : World) (s : session) (sigs : list signal) : session :=
  fold_left (istep w) sigs s.

(** The updates of the spec's three connection events. *)
Definition opened : update :=
  {| connection := Some "open"; statusCode := None; qr := None |}.

Definition closed (code : option Z) : update :=
  {| connection := Some "close"; statusCode := code; qr := None |}.

Definition pairing (token : string) : update :=
  {| connection := None; statusCode := None; qr := Some token |}.

(** Along the run of [sigs] from [s], a callback that leaves a rendered
    QR in [currentQR] only ever resumes while [isConnected] is false. *)
Fixpoint assigned_only_offline (w : World) (s : session) (sigs : list signal)
  : Prop :=
  match sigs with
  | [] => True
  | sig :: rest =>
      match sig with
      | Resume i =>
          match nth_error (suspended s) i with
          | Some u => stores_qr w u = true -> isConnected (globals s) = false
          | None => True
          end
      | Deliver _ | Fire _ _ => True
      end
      /\ assigned_only_offline w (istep w s sig) rest
  end.

End Interleaving.

(* ================================================================== *)
(** ** The kinds of message content *)
(* ================================================================== *)

Module Envelopes.
Import JS Eff Bridge Props.



End Envelopes.

Import JS Eff Bridge Props.
Local Open Scope eff_scope.

(* ================================================================== *)
(** ** String methods: what [trim] and [replace] leave *)
(* ================================================================== *)

Section Strings.

Lemma trimStart_head (s : string) (c : ascii) :
  head (trimStart s) = Some c -> is_ws c = false.
Proof.
  induction s as [|d rest IH]; simpl; [discriminate|].
  destruct (is_ws d) eqn:Hd; [exact IH|].
  simpl. intros [= <-]. exact Hd.
Qed.

Lemma trimEnd_last (s : string) (c : ascii) :
  last (trimEnd s) = Some c -> is_ws c = false.
Proof.
  induction s as [|d rest IH]; simpl; [discriminate|].
  destruct (is_ws d) eqn:Hd; simpl.
  - destruct (trimEnd rest) as [|e r] eqn:Hr; simpl; [discriminate|].
    exact IH.
  - destruct (trimEnd rest) as [|e r] eqn:Hr; simpl.
    + intros [= <-]. exact Hd.
    + exact IH.
Qed.

Lemma trimEnd_keeps_head (c : ascii) (rest : string) :
  is_ws c = false -> trimEnd (String c rest) = String c (trimEnd rest).
Proof. intros H. simpl. rewrite H. reflexivity. Qed.

Lemma trim_is_trimmed (s : string) : is_trimmed (trim s).
Proof.
  unfold is_trimmed, trim. split; intros c Hc.
  - destruct (trimStart s) as [|d rest] eqn:Hs; [discriminate Hc|].
    assert (Hd : is_ws d = false)
      by (apply (trimStart_head s); rewrite Hs; reflexivity).
    rewrite (trimEnd_keeps_head _ _ Hd) in Hc.
    injection Hc as <-. exact Hd.
  - exact (trimEnd_last _ _ Hc).
Qed.




Lemma prefix_app (p r : string) : prefix p (p ++ r) = true.
Proof.
  induction p as [|c p IH]; simpl.
  - destruct r; reflexivity.
  - destruct (ascii_dec c c); [exact IH|congruence].
Qed.

Lemma drop_app (p r : string) : drop (String.length p) (p ++ r) = r.
Proof. induction p as [|c p IH]; simpl; [destruct r; reflexivity|exact IH]. Qed.

Lemma prefix_other_head (c d : ascii) (p s : string) :
  Ascii.eqb d c = false -> prefix (String c p) (String d s) = false.
Proof.
  intros H. simpl. destruct (ascii_dec c d) as [->|]; [|reflexivity].
  rewrite Ascii.eqb_refl in H. discriminate.
Qed.

(** The defining equation of [replace]. *)
Lemma replace_eq (pat repl s : string) :
  replace pat repl s =
  if prefix pat s then repl ++ drop (String.length pat) s
  else match s with
       | "" => ""
       | String c rest => String c (replace pat repl rest)
       end.
Proof. destruct s; reflexivity. Qed.

Lemma replace_at_head (pat repl r : string) :
  replace pat repl (pat ++ r) = repl ++ r.
Proof. rewrite replace_eq, prefix_app, drop_app. reflexivity. Qed.

Lemma replace_skip (c d : ascii) (p repl s : string) :
  Ascii.eqb d c = false ->
  replace (String c p) repl (String d s) = String d (replace (String c p) repl s).
Proof. intros H. rewrite replace_eq, (prefix_other_head _ _ _ _ H). reflexivity. Qed.

(** A string free of [c] followed by a tail: the replacement happens in
    the tail. *)
Lemma replace_past (c : ascii) (p id tail : string) :
  free_of c id = true ->
  replace (String c p) "" (id ++ tail) = id ++ replace (String c p) "" tail.
Proof.
  intros H. induction id as [|d rest IH]; simpl free_of in H.
  - reflexivity.
  - apply andb_prop in H as [Hd Hrest].
    apply negb_true_iff in Hd.
    change (String d rest ++ tail) with (String d (rest ++ tail)).
    rewrite (replace_skip _ _ _ _ _ Hd), (IH Hrest). reflexivity.
Qed.

Lemma append_empty (s : string) : s ++ "" = s.
Proof. induction s as [|c s IH]; simpl; [reflexivity|f_equal; exact IH]. Qed.

(** A pattern that does not occur is not replaced. *)
Lemma replace_absent (c : ascii) (p s : string) :
  free_of c s = true -> replace (String c p) "" s = s.
Proof.
  intros H. rewrite <- (append_empty s) at 1.
  rewrite (replace_past c p s "" H). apply append_empty.
Qed.

(** A pattern at the end of a string that is otherwise free of the
    pattern's first code unit is cut off. *)
Lemma replace_suffix (c : ascii) (p id : string) :
  free_of c id = true -> replace (String c p) "" (id ++ String c p) = id.
Proof.
  intros H. rewrite (replace_past c p id _ H).
  rewrite <- (append_empty (String c p)) at 2.
  rewrite replace_at_head. apply append_empty.
Qed.

(** The two suffixes [cleanFrom] knows are cut off a well-formed sender
    address, whose user part holds no [@]. *)
Lemma cleanFrom_strips (id : string) :
  free_of "@" id = true ->
  cleanFrom (id ++ "@s.whatsapp.net") = id /\ cleanFrom (id ++ "@c.us") = id.
Proof.
  intros H. unfold cleanFrom. split.
  - rewrite (replace_suffix "@" "s.whatsapp.net" id H).
    exact (replace_absent "@" "c.us" id H).
  - rewrite (replace_past "@" "s.whatsapp.net" id "@c.us" H).
    change (replace "@s.whatsapp.net" "" "@c.us") with "@c.us".
    exact (replace_suffix "@" "c.us" id H).
Qed.

End Strings.

(* ================================================================== *)
(** ** The reply resolver *)
(* ================================================================== *)

Section Resolver.

Lemma resolve_as_priority_list (r : value) : resolve r = resolve_by_priority r.
Proof.
  unfold resolve, resolve_by_priority, candidates, first_truthy.
  destruct (truthy r) eqn:Hr; [|reflexivity].
  destruct (truthy (prop r "reply")); [reflexivity|].
  destruct (truthy (prop r "message")); [reflexivity|].
  destruct (truthy (prop r "text")); [reflexivity|].
  destruct r; try reflexivity.
  rewrite Hr. reflexivity.
Qed.

Lemma resolve_truthy_reply (r : value) :
  truthy r = true -> truthy (prop r "reply") = true ->
  resolve r = prop r "reply".
Proof. intros Hr Hp. unfold resolve. rewrite Hr, Hp. reflexivity. Qed.

(** C1, as stated, fails: the object [{reply: "", message: "hi"}] holds
    both fields, and [resolve] returns the value of "message", not the
    value of "reply". *)
Lemma resolve_empty_reply_yields_message :
  let r := JObj [("reply", JStr ""); ("message", JStr "hi")] in
  lookup "reply" [("reply", JStr ""); ("message", JStr "hi")] = Some (JStr "") /\
  lookup "message" [("reply", JStr ""); ("message", JStr "hi")] = Some (JStr "hi") /\
  resolve r = JStr "hi" /\
  resolve r <> prop r "reply".
Proof. repeat split; try reflexivity. discriminate. Qed.

(** C1 (amended): extraction follows the fixed order reply, message, text,
    the value itself when it is a string, response, data, where a candidate
    matches when its value is truthy, and the first truthy candidate wins
    however many recognized fields are present; in particular, for every
    response object whose "reply" field is truthy, [resolve] returns the
    "reply" value, whatever the other fields hold. *)
Theorem resolve_first_truthy_wins :
  (forall r, resolve r = resolve_by_priority r) /\
  (forall fields reply,
     lookup "reply" fields = Some reply -> truthy reply = true ->
     resolve (JObj fields) = reply).
Proof.
  split.
  - exact resolve_as_priority_list.
  - intros fields reply Hl Ht.
    rewrite (resolve_truthy_reply (JObj fields) eq_refl); simpl; rewrite Hl;
      [reflexivity|exact Ht].
Qed.

Lemma resolve_first_truthy_wins_witness :
  let fields := [("message", JStr "later"); ("reply", JStr "hi there")] in
  lookup "reply" fields = Some (JStr "hi there") /\
  truthy (JStr "hi there") = true /\
  resolve (JObj fields) = JStr "hi there".
Proof.
  split; [reflexivity|]. split; [reflexivity|].
  apply (proj2 resolve_first_truthy_wins
           [("message", JStr "later"); ("reply", JStr "hi there")]
           (JStr "hi there")); reflexivity.
Defined.

End Resolver.

(* ================================================================== *)
(** ** The connection side: reconnect timers and the pairing QR *)
(* ================================================================== *)

Section Connection.

Variable w : World.

Lemma storeQR_timers (q : option string) (st : state) :
  timers (storeQR w q st) = timers st.
Proof.
  unfold storeQR. destruct q as [token|]; [|reflexivity].
  destruct (token =? ""); [reflexivity|].
  destruct (QRCode_toDataURL w token); reflexivity.
Qed.

Lemma storeQR_isConnected (q : option string) (st : state) :
  isConnected (storeQR w q st) = isConnected st.
Proof.
  unfold storeQR. destruct q as [token|]; [|reflexivity].
  destruct (token =? ""); [reflexivity|].
  destruct (QRCode_toDataURL w token); reflexivity.
Qed.

Lemma close_update (u : update) (st : state) :
  connection u = Some "close" ->
  onConnectionUpdate w u st =
  {| isConnected := false;
     currentQR := None;
     timers := if shouldReconnect (statusCode u)
               then 5000%Z :: timers st else timers st |}.
Proof.
  intros H. unfold onConnectionUpdate. rewrite H. simpl.
  rewrite storeQR_timers. reflexivity.
Qed.

Lemma open_update (u : update) (st : state) :
  connection u = Some "open" ->
  onConnectionUpdate w u st =
  {| isConnected := true; currentQR := None; timers := timers st |}.
Proof.
  intros H. unfold onConnectionUpdate. rewrite H. simpl.
  rewrite storeQR_timers. reflexivity.
Qed.

Lemma closed_run_timers (codes : list (option Z)) :
  Forall (fun c => shouldReconnect c = true) codes ->
  forall st,
    List.length (timers (run w st (map Closed codes)))
    = (List.length codes + List.length (timers st))%nat.
Proof.
  induction 1 as [|c rest Hc _ IH]; intros st; [reflexivity|].
  unfold run in *. cbn [map fold_left]. rewrite IH.
  unfold Closed, step. rewrite close_update by reflexivity.
  cbn [timers statusCode]. rewrite Hc. cbn [List.length]. lia.
Qed.

(** An update that is neither open nor close and stores no QR changes
    nothing. *)
Lemma idle_update (u : update) (st : state) :
  stores_qr w u = false ->
  (forall c, connection u = Some c -> (c =? "close") = false /\ (c =? "open") = false) ->
  onConnectionUpdate w u st = st.
Proof.
  intros Hs Hc. unfold onConnectionUpdate, stores_qr, storeQR in *.
  destruct (connection u) as [c|].
  - destruct (Hc c eq_refl) as [H1 H2]. rewrite H1, H2 in *. simpl in Hs.
    destruct (qr u) as [token|]; [|reflexivity].
    destruct (token =? ""); [reflexivity|].
    destruct (QRCode_toDataURL w token); [discriminate Hs|reflexivity].
  - destruct (qr u) as [token|]; [|reflexivity].
    destruct (token =? ""); [reflexivity|].
    destruct (QRCode_toDataURL w token); [discriminate Hs|reflexivity].
Qed.

Lemma step_keeps_qr_offline (st : state) (e : event) :
  qr_only_when_offline st ->
  match e with
  | ConnectionUpdate u => stores_qr w u = true -> isConnected st = false
  | TimerFired _ _ => True
  end ->
  qr_only_when_offline (step w st e).
Proof.
  unfold qr_only_when_offline. intros Hinv Hoff.
  destruct e as [u|i ok]; simpl step.
  - destruct (connection u) as [c|] eqn:Hc.
    + destruct (c =? "close") eqn:Hclose.
      * apply String.eqb_eq in Hclose. subst c.
        rewrite close_update by exact Hc. simpl. discriminate.
      * destruct (c =? "open") eqn:Hopen.
        -- apply String.eqb_eq in Hopen. subst c.
           rewrite open_update by exact Hc. reflexivity.
        -- unfold onConnectionUpdate. rewrite Hc, Hclose, Hopen.
           destruct (stores_qr w u) eqn:Hs.
           ++ rewrite storeQR_isConnected, (Hoff eq_refl). discriminate.
           ++ assert (Hid : onConnectionUpdate w u st = st).
              { apply idle_update; [exact Hs|].
                intros c' Hc'. rewrite Hc in Hc'. injection Hc' as <-.
                split; assumption. }
              unfold onConnectionUpdate in Hid.
              rewrite Hc, Hclose, Hopen in Hid. rewrite Hid. exact Hinv.
    + unfold onConnectionUpdate. rewrite Hc.
      destruct (stores_qr w u) eqn:Hs.
      * rewrite storeQR_isConnected, (Hoff eq_refl). discriminate.
      * assert (Hid : onConnectionUpdate w u st = st).
        { apply idle_update; [exact Hs|]. intros c' Hc'.
          rewrite Hc in Hc'. discriminate. }
        unfold onConnectionUpdate in Hid. rewrite Hc in Hid.
        rewrite Hid. exact Hinv.
  - destruct (i <? List.length (timers st))%nat; [|exact Hinv].
    unfold connectToWhatsApp. destruct ok; exact Hinv.
Qed.

End Connection.

(** C2, as stated, fails: two Closed events with the non-logout code 428,
    the second arriving while the first timer is pending, leave two
    pending reconnect timers. *)
Lemma second_close_schedules_second_timer :
  let st := run Scenario.plain initial [Closed (Some 428%Z); Closed (Some 428%Z)] in
  shouldReconnect (Some 428%Z) = true /\
  timers (run Scenario.plain initial [Closed (Some 428%Z)]) = [5000%Z] /\
  timers st = [5000%Z; 5000%Z] /\
  ~ (List.length (timers st) <= 1)%nat.
Proof.
  split; [reflexivity|]. split; [reflexivity|]. split; [reflexivity|].
  simpl. lia.
Qed.

(** C2 (amended): every Closed event with a non-logout reason code
    schedules exactly one reconnect attempt, a 5000 ms timer added to the
    pending ones, and a Closed event with the logout code schedules none.
    The handler keeps no record of pending timers: a further non-logout
    Closed event schedules a further timer whether or not one is pending,
    so [k] such events in a row leave [k] more pending timers. *)
Theorem closed_schedules_one_timer_each (w : World) (st : state) :
  (forall u,
     connection u = Some "close" ->
     timers (onConnectionUpdate w u st) =
       if shouldReconnect (statusCode u) then 5000%Z :: timers st
       else timers st) /\
  shouldReconnect (Some loggedOut) = false /\
  (forall codes,
     Forall (fun c => shouldReconnect c = true) codes ->
     List.length (timers (run w st (map Closed codes)))
     = (List.length codes + List.length (timers st))%nat).
Proof.
  split; [|split].
  - intros u Hu. rewrite (close_update w u st Hu). reflexivity.
  - reflexivity.
  - intros codes Hcodes. exact (closed_run_timers w codes Hcodes st).
Qed.

Lemma closed_schedules_one_timer_each_witness :
  let u := {| connection := Some "close"; statusCode := Some 428%Z; qr := None |} in
  connection u = Some "close" /\
  timers (onConnectionUpdate Scenario.plain u initial) = [5000%Z] /\
  Forall (fun c => shouldReconnect c = true) [Some 428%Z; None] /\
  List.length (timers (run Scenario.plain initial (map Closed [Some 428%Z; None]))) = 2%nat.
Proof.
  pose proof (closed_schedules_one_timer_each Scenario.plain initial)
    as [Hstep [_ Hrun]].
  assert (Hcodes : Forall (fun c => shouldReconnect c = true) [Some 428%Z; None])
    by (repeat constructor).
  split; [reflexivity|]. split.
  - exact (Hstep {| connection := Some "close"; statusCode := Some 428%Z; qr := None |}
             eq_refl).
  - split; [exact Hcodes|]. exact (Hrun [Some 428%Z; None] Hcodes).
Defined.

Section Suspension.

Import Interleaving.

Variable w : World.

Lemma stores_qr_carries (u : update) :
  stores_qr w u = true -> carries_qr u = true.
Proof.
  unfold stores_qr, carries_qr. destruct (qr u) as [token|]; [|discriminate].
  destruct (token =? ""); [discriminate|reflexivity].
Qed.

(** A callback called without a token, or one that resumes at once, is a
    step of [Bridge.step]. *)
Lemma deliver_then_resume (s : session) (u : update) :
  suspended s = [] ->
  globals (if carries_qr u then istep w (istep w s (Deliver u)) (Resume 0)
           else istep w s (Deliver u))
  = step w (globals s) (ConnectionUpdate u).
Proof.
  intros Hnone. unfold istep. destruct (carries_qr u); [|reflexivity].
  cbn [suspended globals]. rewrite Hnone. reflexivity.
Qed.

Lemma istep_keeps_qr_offline (s : session) (sig : signal) :
  qr_only_when_offline (globals s) ->
  match sig with
  | Resume i =>
      match nth_error (suspended s) i with
      | Some u => stores_qr w u = true -> isConnected (globals s) = false
      | None => True
      end
  | Deliver _ | Fire _ _ => True
  end ->
  qr_only_when_offline (globals (istep w s sig)).
Proof.
  intros Hinv Hoff. destruct sig as [u|i|i ok]; unfold istep.
  - destruct (carries_qr u) eqn:Hq; [exact Hinv|].
    cbn [globals].
    apply (step_keeps_qr_offline w (globals s) (ConnectionUpdate u) Hinv).
    intros Hs. rewrite (stores_qr_carries u Hs) in Hq. discriminate Hq.
  - destruct (nth_error (suspended s) i) as [u|]; [|exact Hinv].
    cbn [globals].
    exact (step_keeps_qr_offline w (globals s) (ConnectionUpdate u) Hinv Hoff).
  - cbn [globals].
    exact (step_keeps_qr_offline w (globals s) (TimerFired i ok) Hinv I).
Qed.

Lemma irun_keeps_qr_offline (sigs : list signal) :
  forall s,
    qr_only_when_offline (globals s) ->
    assigned_only_offline w s sigs ->
    qr_only_when_offline (globals (irun w s sigs)).
Proof.
  induction sigs as [|sig rest IH]; intros s Hinv Hoff; [exact Hinv|].
  destruct Hoff as [Hnow Hlater].
  apply (IH (istep w s sig)); [|exact Hlater].
  apply istep_keeps_qr_offline; assumption.
Qed.

End Suspension.

(** C8, as stated, fails, in two ways.  A pairing challenge whose
    rendering is still awaited when the connection opens is assigned to
    [currentQR] after the open branch has cleared it; and a pairing
    challenge delivered after Opened, with no Closed in between, is stored
    while [isConnected] stays true.  Either way [/qr-status] reports a
    non-null qr together with connected:true. *)
Lemma qr_reported_while_connected :
  let late := Interleaving.irun Scenario.plain Interleaving.fresh
                [Interleaving.Deliver (Interleaving.pairing "abc123");
                 Interleaving.Deliver Interleaving.opened;
                 Interleaving.Resume 0] in
  let after := Interleaving.irun Scenario.plain Interleaving.fresh
                 [Interleaving.Deliver Interleaving.opened;
                  Interleaving.Deliver (Interleaving.pairing "abc123");
                  Interleaving.Resume 0] in
  json (qr_status Scenario.plain (Interleaving.globals late))
  = JObj [("connected", JBool true);
          ("qr", JStr "data:image/png;base64,abc123");
          ("timestamp", JStr "2024-05-01T12:00:00.000Z")] /\
  json (qr_status Scenario.plain (Interleaving.globals after))
  = JObj [("connected", JBool true);
          ("qr", JStr "data:image/png;base64,abc123");
          ("timestamp", JStr "2024-05-01T12:00:00.000Z")] /\
  ~ qr_only_when_offline (Interleaving.globals late) /\
  ~ qr_only_when_offline (Interleaving.globals after).
Proof.
  split; [reflexivity|]. split; [reflexivity|].
  unfold qr_only_when_offline. simpl.
  split; intros H; specialize (H eq_refl); discriminate H.
Qed.

(** C8 (amended): every open update and every close update clears the
    pairing QR when its callback reaches the connection branches, and
    assigning a rendered QR leaves [isConnected] as it is.  So along every
    sequence of deliveries, resumptions and timers in which a rendered QR
    is only ever assigned while [isConnected] is false, the status surface
    never reports a non-null qr together with connected:true. *)
Theorem qr_cleared_on_open_and_close (w : World) :
  (forall st u,
     connection u = Some "open" ->
     isConnected (onConnectionUpdate w u st) = true /\
     currentQR (onConnectionUpdate w u st) = None) /\
  (forall st u,
     connection u = Some "close" ->
     isConnected (onConnectionUpdate w u st) = false /\
     currentQR (onConnectionUpdate w u st) = None) /\
  (forall st q, isConnected (storeQR w q st) = isConnected st) /\
  (forall sigs,
     Interleaving.assigned_only_offline w Interleaving.fresh sigs ->
     let reported :=
       json (qr_status w (Interleaving.globals
                            (Interleaving.irun w Interleaving.fresh sigs))) in
     prop reported "connected" = JBool true -> prop reported "qr" = JNull).
Proof.
  split; [|split; [|split]].
  - intros st u Hu. rewrite (open_update w u st Hu). split; reflexivity.
  - intros st u Hu. rewrite (close_update w u st Hu). split; reflexivity.
  - intros st q. apply storeQR_isConnected.
  - intros sigs Hsigs reported Hconn.
    assert (Hinv : qr_only_when_offline
                     (Interleaving.globals
                        (Interleaving.irun w Interleaving.fresh sigs))).
    { apply irun_keeps_qr_offline; [|exact Hsigs].
      unfold qr_only_when_offline. reflexivity. }
    unfold reported, qr_status in *. simpl in *.
    injection Hconn as Hconn. rewrite (Hinv Hconn). reflexivity.
Qed.

Lemma qr_cleared_on_open_and_close_witness :
  let sigs := [Interleaving.Deliver (Interleaving.pairing "abc123");
               Interleaving.Resume 0;
               Interleaving.Deliver Interleaving.opened] in
  let reported :=
    json (qr_status Scenario.plain
            (Interleaving.globals
               (Interleaving.irun Scenario.plain Interleaving.fresh sigs))) in
  Interleaving.assigned_only_offline Scenario.plain Interleaving.fresh sigs /\
  currentQR (Interleaving.globals
               (Interleaving.irun Scenario.plain Interleaving.fresh
                  [Interleaving.Deliver (Interleaving.pairing "abc123");
                   Interleaving.Resume 0]))
  = Some "data:image/png;base64,abc123" /\
  prop reported "connected" = JBool true /\
  prop reported "qr" = JNull.
Proof.
  assert (Hsigs : Interleaving.assigned_only_offline Scenario.plain Interleaving.fresh
                    [Interleaving.Deliver (Interleaving.pairing "abc123");
                     Interleaving.Resume 0;
                     Interleaving.Deliver Interleaving.opened]).
  { simpl. intuition discriminate. }
  split; [exact Hsigs|]. split; [reflexivity|]. split; [reflexivity|].
  exact (proj2 (proj2 (proj2 (qr_cleared_on_open_and_close Scenario.plain)))
           _ Hsigs eq_refl).
Defined.

(* ================================================================== *)
(** ** The message side: normalizing, relaying, replying *)
(* ================================================================== *)

Section Monad.

Context {A B : Type}.

Lemma bind_ret (a : A) (f : A -> M B) : bind (ret a) f = f a.
Proof. unfold bind, ret. destruct (f a). reflexivity. Qed.

End Monad.

(** A value with a defined property is an object, so reading any property
    of it does not throw. *)
Lemma get_of_object (v : value) (k k' : string) :
  prop v k <> JUndefined -> get v k' = ret (prop v k').
Proof. destruct v; simpl; intros H; try reflexivity; congruence. Qed.

Lemma str_prop_defined (v : value) (k s : string) :
  prop v k = JStr s -> prop v k <> JUndefined.
Proof. intros ->. discriminate. Qed.

Lemma object_truthy (v : value) (k : string) :
  prop v k <> JUndefined -> truthy v = true.
Proof. destruct v; simpl; intros H; try reflexivity; congruence. Qed.

Section Normalize.

Variable w : World.
Variables (message keyv content : value) (sender : string).
Hypothesis Hkey : prop message "key" = keyv.
Hypothesis Hjid : prop keyv "remoteJid" = JStr sender.
Hypothesis Hcontent : prop message "message" = content.

Lemma key_defined : prop message "key" <> JUndefined.
Proof. rewrite Hkey. intros ->. discriminate Hjid. Qed.

Lemma recognized_content_defined (kind body : string) :
  recognized content kind body ->
  exists k, prop content k <> JUndefined.
Proof.
  intros [_ [[_ H]|[[_ H]|[_ [H _]]]]].
  - exists "conversation". rewrite H. discriminate.
  - exists "extendedTextMessage". intros E. rewrite E in H. discriminate H.
  - exists "imageMessage". intros E. rewrite E in H. discriminate H.
Qed.

Lemma extractText_recognized (kind body : string) :
  recognized content kind body ->
  extractText content (JStr kind) = ret (Some (JStr body)).
Proof.
  intros Hrec. destruct (recognized_content_defined _ _ Hrec) as [k Hk].
  destruct Hrec as [_ [[-> H]|[[-> H]|[-> [H Hne]]]]]; unfold extractText; simpl is_str;
    cbv iota.
  - rewrite (get_of_object content k _ Hk), bind_ret, H. reflexivity.
  - rewrite (get_of_object content k _ Hk), bind_ret.
    rewrite (get_of_object _ "text" "text"), bind_ret by (rewrite H; discriminate).
    rewrite H. reflexivity.
  - rewrite (get_of_object content k _ Hk), bind_ret.
    rewrite (get_of_object _ "caption" "caption"), bind_ret by (rewrite H; discriminate).
    rewrite H. simpl truthy.
    destruct (body =? "") eqn:E; [apply String.eqb_eq in E; contradiction|].
    reflexivity.
Qed.

(** A recognized message is normalized: the sender cleaned, the text
    trimmed, the type the first key of [message.message]. *)
Lemma normalize_recognized (kind body : string) :
  recognized content kind body ->
  normalize w message =
  ret (Some {| from := cleanFrom sender;
               text := trim body;
               timestamp := now w;
               messageId := prop keyv "id";
               messageType := kind |}).
Proof.
  intros Hrec. unfold normalize.
  rewrite (get_of_object message "key" "key" key_defined), bind_ret, Hkey.
  rewrite (get_of_object keyv "remoteJid" "remoteJid"), bind_ret, Hjid
    by (rewrite Hjid; discriminate).
  rewrite (get_of_object message "key" "message" key_defined), bind_ret, Hcontent.
  destruct (recognized_content_defined _ _ Hrec) as [k Hk].
  rewrite (object_truthy content k Hk).
  rewrite (proj1 Hrec), (extractText_recognized _ _ Hrec), bind_ret.
  simpl str_method. rewrite !bind_ret.
  rewrite (get_of_object keyv "remoteJid" "id"), bind_ret
    by (rewrite Hjid; discriminate).
  reflexivity.
Qed.

(** A message of another type is not normalized: the source returns. *)
Lemma normalize_unrecognized :
  unrecognized content -> normalize w message = ret None.
Proof.
  intros [H1 [H2 H3]]. unfold normalize.
  rewrite (get_of_object message "key" "key" key_defined), bind_ret, Hkey.
  rewrite (get_of_object keyv "remoteJid" "remoteJid"), bind_ret, Hjid
    by (rewrite Hjid; discriminate).
  rewrite (get_of_object message "key" "message" key_defined), bind_ret, Hcontent.
  unfold extractText. rewrite H1, H2, H3, bind_ret. reflexivity.
Qed.

(** An image whose caption is falsy (absent, or the empty string) is not
    normalized either. *)
Lemma normalize_image_without_caption (img : list (string * value)) :
  first_key content = JStr "imageMessage" ->
  prop content "imageMessage" = JObj img ->
  truthy (prop (JObj img) "caption") = false ->
  normalize w message = ret None.
Proof.
  intros Hk Himg Hcap. unfold normalize.
  rewrite (get_of_object message "key" "key" key_defined), bind_ret, Hkey.
  rewrite (get_of_object keyv "remoteJid" "remoteJid"), bind_ret, Hjid
    by (rewrite Hjid; discriminate).
  rewrite (get_of_object message "key" "message" key_defined), bind_ret, Hcontent.
  assert (Hdef : prop content "imageMessage" <> JUndefined)
    by (rewrite Himg; discriminate).
  rewrite (object_truthy content _ Hdef), Hk.
  unfold extractText. simpl is_str. cbv iota.
  rewrite (get_of_object content _ _ Hdef), bind_ret, Himg.
  change (get (JObj img) "caption") with (ret (prop (JObj img) "caption")).
  rewrite bind_ret, Hcap, bind_ret. reflexivity.
Qed.

End Normalize.

Section Handler.

Variables (w : World) (st : state) (message : value).

Lemma handle_dropped :
  normalize w message = ret None ->
  handleIncomingMessage w st message = ret tt.
Proof.
  intros H. unfold handleIncomingMessage. rewrite H, bind_ret. reflexivity.
Qed.

(** [sendToN8n] makes its one call first and never throws. *)
Lemma sendToN8n_returns (md : messageData) :
  exists logs r, sendToN8n w md = (Post n8nWebhookUrl md :: logs, Value r).
Proof.
  unfold sendToN8n. destruct (axios_post w n8nWebhookUrl md) as [m| |code data].
  - eexists _, _. reflexivity.
  - eexists _, _. reflexivity.
  - destruct ((200 <=? code)%Z && (code <? 300)%Z); eexists _, _; reflexivity.
Qed.

(** A failed call is logged and answered with [null]. *)
Lemma sendToN8n_rejected (md : messageData) :
  rejected (axios_post w n8nWebhookUrl md) = true ->
  exists logs,
    sendToN8n w md
    = (Post n8nWebhookUrl md :: Log Error "Failed to send message to n8n:" :: logs,
       Value JNull)
    /\ filter is_post logs = [] /\ filter is_send logs = [].
Proof.
  unfold sendToN8n, rejected.
  destruct (axios_post w n8nWebhookUrl md) as [m| |code data]; intros H.
  - exists []. repeat split.
  - exists []. repeat split.
  - apply negb_true_iff in H. rewrite H.
    exists [Log Error "n8n Response Data:"]. repeat split.
Qed.

(** A call answered with a status in [200, 300) returns the body. *)
Lemma sendToN8n_fulfilled (md : messageData) (code : Z) (data : value) :
  axios_post w n8nWebhookUrl md = Response code data ->
  rejected (Response code data) = false ->
  sendToN8n w md
  = ([Post n8nWebhookUrl md; Log Info "Message sent to n8n. Received response:"],
     Value data).
Proof.
  unfold sendToN8n, rejected. intros -> H.
  apply negb_false_iff in H. rewrite H. reflexivity.
Qed.

(** A falsy answer: no reply, one warning. *)
Lemma handle_no_reply (md : messageData) (t : list effect) (r : value) :
  normalize w message = ret (Some md) ->
  sendToN8n w md = (t, Value r) ->
  truthy r = false ->
  handleIncomingMessage w st message
  = ((Log Info "Incoming message:" :: t)
       ++ [Log Warn "No reply from n8n or invalid format. Response:"],
     Value tt)%list.
Proof.
  intros Hn Hs Hr. unfold handleIncomingMessage.
  rewrite Hn, bind_ret, Hs. unfold resolve. simpl. rewrite Hr. reflexivity.
Qed.

End Handler.

Section Forwarding.

Variables (w : World) (st : state).

(** [sendWhatsAppReply] calls [sock.sendMessage] first, whatever the
    connection state, and swallows every failure. *)
Lemma sendWhatsAppReply_sends (to content : value) :
  exists logs,
    sendWhatsAppReply w to content = (SendMessage to content :: logs, Value tt)
    /\ filter is_post logs = [] /\ filter is_send logs = [].
Proof.
  unfold sendWhatsAppReply, call_sendMessage. simpl.
  destruct (sock_sendMessage w to content) as [m|]; simpl.
  - exists [Log Error "Failed to send reply to WhatsApp:"]. repeat split.
  - destruct content; simpl;
      try solve [exists [Log Error "Failed to send reply to WhatsApp:"];
                 split; [reflexivity|split; reflexivity]].
    exists [Log Info "Sent AI reply to WhatsApp:"].
    split; [reflexivity|split; reflexivity].
Qed.

(** A normalized message is posted to the webhook exactly once, first
    thing after the log line. *)
Lemma handle_forwards_once (message : value) (md : messageData) :
  normalize w message = ret (Some md) ->
  exists rest,
    trace (handleIncomingMessage w st message)
    = Log Info "Incoming message:" :: Post n8nWebhookUrl md :: rest
    /\ filter is_post rest = [].
Proof.
  intros Hn. unfold handleIncomingMessage. rewrite Hn, bind_ret.
  destruct (sendToN8n_returns w md) as [logs [r Hs]].
  assert (Hlogs : filter is_post logs = []).
  { revert Hs. unfold sendToN8n.
    destruct (axios_post w n8nWebhookUrl md) as [m| |code data]; simpl;
      try (intros [= <- _]; reflexivity).
    destruct ((200 <=? code)%Z && (code <? 300)%Z); simpl;
      intros [= <- _]; reflexivity. }
  rewrite Hs.
  destruct (sendWhatsAppReply_sends (prop (prop message "key") "remoteJid") (resolve r))
    as [slogs [Hsend [Hp _]]].
  assert (Hfin : forall tail, filter is_post tail = [] ->
                 filter is_post (logs ++ tail) = []).
  { intros tail Ht. rewrite filter_app, Hlogs, Ht. reflexivity. }
  destruct (truthy r) eqn:Hr; simpl; rewrite Hr; simpl.
  - destruct (truthy (resolve r)) eqn:Hres; simpl.
    + rewrite Hsend. simpl. eexists. split; [reflexivity|].
      apply Hfin. simpl. exact Hp.
    + eexists. split; [reflexivity|]. apply Hfin. reflexivity.
  - unfold resolve. rewrite Hr. simpl. eexists. split; [reflexivity|].
    apply Hfin. reflexivity.
Qed.

End Forwarding.

Lemma is_str_inv (v : value) (lit : string) : is_str v lit = true -> v = JStr lit.
Proof.
  destruct v; simpl; try discriminate. intros H.
  apply String.eqb_eq in H. subst. reflexivity.
Qed.





(** C5, as stated, fails: an image message whose caption field is present
    and is the empty string is a message whose text is empty after
    trimming, and it is not forwarded. *)
Lemma empty_caption_not_forwarded :
  let content := JObj [("imageMessage", JObj [("caption", JStr "")])] in
  let m := Scenario.upsert [Scenario.envelope "123@s.whatsapp.net" false content] in
  lookup "caption" [("caption", JStr "")] = Some (JStr "") /\
  trim "" = "" /\
  trace (onMessagesUpsert Scenario.plain Scenario.connected m) = [] /\
  posts (trace (onMessagesUpsert Scenario.plain Scenario.connected m)) <> 1%nat.
Proof.
  split; [reflexivity|]. split; [reflexivity|]. split; [reflexivity|].
  discriminate.
Qed.

(** C5 (amended): for every conversation or extendedTextMessage envelope
    whose text is a string, and every imageMessage envelope whose caption is
    a non-empty string, a text that is empty after trimming is still
    forwarded to the webhook, once, with the empty text; an imageMessage
    whose caption is absent or the empty string is dropped. *)
Theorem blank_text_still_forwarded
  (w : World) (st : state) (message keyv content : value) (sender : string) :
  prop message "key" = keyv ->
  prop keyv "remoteJid" = JStr sender ->
  prop message "message" = content ->
  (forall kind body,
     recognized content kind body ->
     trim body = "" ->
     exists rest,
       trace (handleIncomingMessage w st message)
       = Log Info "Incoming message:"
         :: Post n8nWebhookUrl {| from := cleanFrom sender;
                                  text := "";
                                  timestamp := now w;
                                  messageId := prop keyv "id";
                                  messageType := kind |}
         :: rest
       /\ posts (trace (handleIncomingMessage w st message)) = 1%nat)
  /\ (forall img,
        first_key content = JStr "imageMessage" ->
        prop content "imageMessage" = JObj img ->
        truthy (prop (JObj img) "caption") = false ->
        trace (handleIncomingMessage w st message) = []).
Proof.
  intros Hkey Hjid Hcontent. split.
  - intros kind body Hrec Hblank.
    pose proof (normalize_recognized w message keyv content sender
                  Hkey Hjid Hcontent kind body Hrec) as Hn.
    rewrite Hblank in Hn.
    destruct (handle_forwards_once w st message _ Hn) as [rest [Ht Hp]].
    exists rest. split; [exact Ht|].
    rewrite Ht. unfold posts. simpl. rewrite Hp. reflexivity.
  - intros img Hk Himg Hcap.
    rewrite (handle_dropped w st message
               (normalize_image_without_caption w message keyv content sender
                  Hkey Hjid Hcontent img Hk Himg Hcap)).
    reflexivity.
Qed.

Lemma blank_text_still_forwarded_witness :
  let blank := Scenario.envelope "123@s.whatsapp.net" false
                 (JObj [("imageMessage", JObj [("caption", JStr "   ")])]) in
  recognized (prop blank "message") "imageMessage" "   " /\
  trim "   " = "" /\
  posts (trace (handleIncomingMessage Scenario.plain Scenario.connected blank)) = 1%nat.
Proof.
  assert (Hrec : recognized (JObj [("imageMessage", JObj [("caption", JStr "   ")])])
                   "imageMessage" "   ").
  { split; [reflexivity|]. right. right.
    split; [reflexivity|]. split; [reflexivity|discriminate]. }
  split; [exact Hrec|]. split; [reflexivity|].
  destruct (proj1 (blank_text_still_forwarded Scenario.plain Scenario.connected
                     (Scenario.envelope "123@s.whatsapp.net" false
                        (JObj [("imageMessage", JObj [("caption", JStr "   ")])]))
                     _ _ "123@s.whatsapp.net" eq_refl eq_refl eq_refl)
              "imageMessage" "   " Hrec eq_refl) as [rest [_ Hposts]].
  exact Hposts.
Defined.

Lemma truthy_defined (v : value) : truthy v = true -> v <> JUndefined.
Proof. intros H ->. discriminate H. Qed.

Lemma index0_defined (v : value) : index0 v <> JUndefined -> truthy v = true /\ v <> JUndefined.
Proof.
  destruct v as [| | | |s|items|fields]; simpl; intros H;
    try congruence; try (split; [reflexivity|discriminate]).
  destruct s; [congruence|]. split; [reflexivity|discriminate].
Qed.

Lemma prop_defined (v : value) (k : string) :
  prop v k <> JUndefined -> v <> JUndefined.
Proof. intros H ->. apply H. reflexivity. Qed.

(** C6: for every self-originated inbound event, one whose message has a
    truthy [key.fromMe], the [messages.upsert] handler returns without
    calling [handleIncomingMessage]: nothing is normalized, nothing is
    posted to the webhook, nothing is sent. *)
Theorem self_originated_never_forwarded (w : World) (st : state) (m : value) :
  truthy (prop (prop (index0 (prop m "messages")) "key") "fromMe") = true ->
  onMessagesUpsert w st m = ret tt.
Proof.
  intros Hme. unfold onMessagesUpsert.
  set (messages := prop m "messages") in *.
  set (message := index0 messages) in *.
  set (key := prop message "key") in *.
  assert (Hfrom : prop key "fromMe" <> JUndefined) by exact (truthy_defined _ Hme).
  assert (Hkey : prop message "key" <> JUndefined) by exact (prop_defined _ _ Hfrom).
  assert (Hmsg : message <> JUndefined) by exact (prop_defined _ _ Hkey).
  destruct (index0_defined messages Hmsg) as [Htruthy Hmessages].
  assert (Hlist : prop m "messages" <> JUndefined) by exact Hmessages.
  rewrite (get_of_object m "messages" "messages" Hlist), bind_ret.
  fold messages. rewrite Htruthy. fold message.
  rewrite (object_truthy message "key" Hkey). simpl negb. simpl orb. cbv iota.
  rewrite (get_of_object message "key" "key" Hkey), bind_ret. fold key.
  rewrite (get_of_object key "fromMe" "fromMe" Hfrom), bind_ret.
  rewrite Hme. reflexivity.
Qed.

Lemma self_originated_never_forwarded_witness :
  let m := Scenario.upsert [Scenario.envelope "123@s.whatsapp.net" true
                              (JObj [("conversation", JStr "hello")])] in
  truthy (prop (prop (index0 (prop m "messages")) "key") "fromMe") = true /\
  onMessagesUpsert Scenario.plain Scenario.connected m = ret tt.
Proof.
  split; [reflexivity|].
  exact (self_originated_never_forwarded Scenario.plain Scenario.connected
           (Scenario.upsert [Scenario.envelope "123@s.whatsapp.net" true
                               (JObj [("conversation", JStr "hello")])])
           eq_refl).
Defined.

(** C7, as stated, fails: on a timeout [sendToN8n] returns [null], not an
    outcome record with [succeeded: false] and an error classification. *)
Lemma relay_failure_returns_null :
  let w := Scenario.world Timeout None in
  let md := {| from := "123"; text := "hello";
               timestamp := "2024-05-01T12:00:00.000Z";
               messageId := JStr "3EB0A1"; messageType := "conversation" |} in
  snd (sendToN8n w md) = Value JNull /\
  ~ (exists fields,
       snd (sendToN8n w md) = Value (JObj fields) /\
       lookup "succeeded" fields = Some (JBool false)).
Proof.
  split; [reflexivity|].
  intros [fields [H _]]. discriminate H.
Qed.

(** C7 (amended): for every relay call, any transport failure, timeout or
    non-2xx HTTP response makes [sendToN8n] log the error and return
    [null] (no outcome record and no error classification reach the
    caller), with no retry attempted: the webhook is called exactly once;
    the inbound message is dropped and no reply is sent for it. *)
Theorem relay_failure_drops_message
  (w : World) (st : state) (message : value) (md : messageData) :
  normalize w message = ret (Some md) ->
  rejected (axios_post w n8nWebhookUrl md) = true ->
  snd (sendToN8n w md) = Value JNull
  /\ posts (trace (sendToN8n w md)) = 1%nat
  /\ In (Log Error "Failed to send message to n8n:") (trace (sendToN8n w md))
  /\ posts (trace (handleIncomingMessage w st message)) = 1%nat
  /\ sends (trace (handleIncomingMessage w st message)) = 0%nat.
Proof.
  intros Hn Hrej.
  destruct (sendToN8n_rejected w md Hrej) as [logs [Hs [Hp Hsd]]].
  rewrite (handle_no_reply w st message md _ JNull Hn Hs eq_refl).
  rewrite Hs. unfold posts, sends, trace. simpl.
  rewrite !filter_app, Hp, Hsd. simpl.
  repeat split. right. left. reflexivity.
Qed.

Lemma relay_failure_drops_message_witness :
  let w := Scenario.world (Response 502 (JStr "Bad Gateway")) None in
  let message := Scenario.envelope "123@s.whatsapp.net" false
                   (JObj [("conversation", JStr "hello")]) in
  let md := {| from := "123"; text := "hello";
               timestamp := "2024-05-01T12:00:00.000Z";
               messageId := JStr "3EB0A1"; messageType := "conversation" |} in
  normalize w message = ret (Some md) /\
  rejected (axios_post w n8nWebhookUrl md) = true /\
  posts (trace (handleIncomingMessage w Scenario.connected message)) = 1%nat /\
  sends (trace (handleIncomingMessage w Scenario.connected message)) = 0%nat.
Proof.
  split; [reflexivity|]. split; [reflexivity|].
  exact (proj2 (proj2 (proj2
    (relay_failure_drops_message
       (Scenario.world (Response 502 (JStr "Bad Gateway")) None)
       Scenario.connected
       (Scenario.envelope "123@s.whatsapp.net" false
          (JObj [("conversation", JStr "hello")]))
       {| from := "123"; text := "hello";
          timestamp := "2024-05-01T12:00:00.000Z";
          messageId := JStr "3EB0A1"; messageType := "conversation" |}
       eq_refl eq_refl)))).
Defined.

(** C10, as stated, fails: a 2xx answer with an empty body is parsed to
    the empty string, which is falsy, and [sendToN8n] returns that string,
    not [null] as it does for a failed call, so the two return values
    differ. *)
Lemma empty_body_not_returned_as_null :
  let md := {| from := "123"; text := "hello";
               timestamp := "2024-05-01T12:00:00.000Z";
               messageId := JStr "3EB0A1"; messageType := "conversation" |} in
  truthy (JStr "") = false /\
  snd (sendToN8n (Scenario.world (Response 200 (JStr "")) None) md) = Value (JStr "") /\
  snd (sendToN8n (Scenario.world Timeout None) md) = Value JNull /\
  snd (sendToN8n (Scenario.world (Response 200 (JStr "")) None) md)
  <> snd (sendToN8n (Scenario.world Timeout None) md).
Proof.
  split; [reflexivity|]. split; [reflexivity|]. split; [reflexivity|].
  discriminate.
Qed.

(** C10 (amended): for every inbound message, a webhook call that succeeds
    (2xx) with a falsy parsed body is handled like a failed relay call: no
    reply is dispatched and the handler logs one warning after the relay
    call.  The relay function returns the body itself, so it returns
    [null], as a failed call does, exactly when the body is [null]; for
    [false], [0] and the empty string the returned value is that body. *)
Theorem falsy_answer_handled_as_failure
  (w w' : World) (st : state) (message : value) (md : messageData)
  (code : Z) (data : value) :
  normalize w message = ret (Some md) ->
  normalize w' message = ret (Some md) ->
  axios_post w n8nWebhookUrl md = Response code data ->
  rejected (Response code data) = false ->
  truthy data = false ->
  rejected (axios_post w' n8nWebhookUrl md) = true ->
  snd (sendToN8n w md) = Value data
  /\ snd (sendToN8n w' md) = Value JNull
  /\ (snd (sendToN8n w md) = snd (sendToN8n w' md) <-> data = JNull)
  /\ trace (handleIncomingMessage w st message)
     = ((Log Info "Incoming message:" :: trace (sendToN8n w md))
          ++ [Log Warn "No reply from n8n or invalid format. Response:"])%list
  /\ trace (handleIncomingMessage w' st message)
     = ((Log Info "Incoming message:" :: trace (sendToN8n w' md))
          ++ [Log Warn "No reply from n8n or invalid format. Response:"])%list
  /\ sends (trace (handleIncomingMessage w st message)) = 0%nat
  /\ sends (trace (handleIncomingMessage w' st message)) = 0%nat.
Proof.
  intros Hn Hn' Hans Hok Hfalsy Hrej.
  pose proof (sendToN8n_fulfilled w md code data Hans Hok) as Hs.
  destruct (sendToN8n_rejected w' md Hrej) as [logs [Hs' [_ Hsd]]].
  rewrite (handle_no_reply w st message md _ data Hn Hs Hfalsy).
  rewrite (handle_no_reply w' st message md _ JNull Hn' Hs' eq_refl).
  rewrite Hs, Hs'. unfold sends, trace. simpl.
  rewrite !filter_app, Hsd. simpl.
  split; [reflexivity|]. split; [reflexivity|]. split.
  - split; [intros [= ->]; reflexivity|intros ->; reflexivity].
  - split; [reflexivity|]. split; [reflexivity|]. split; reflexivity.
Qed.

Lemma falsy_answer_handled_as_failure_witness :
  let w := Scenario.world (Response 200 (JNum 0)) None in
  let w' := Scenario.world (NetworkError "ECONNREFUSED") None in
  let message := Scenario.envelope "123@s.whatsapp.net" false
                   (JObj [("conversation", JStr "hello")]) in
  let md := {| from := "123"; text := "hello";
               timestamp := "2024-05-01T12:00:00.000Z";
               messageId := JStr "3EB0A1"; messageType := "conversation" |} in
  normalize w message = ret (Some md) /\
  normalize w' message = ret (Some md) /\
  axios_post w n8nWebhookUrl md = Response 200 (JNum 0) /\
  rejected (Response 200 (JNum 0)) = false /\
  truthy (JNum 0) = false /\
  rejected (axios_post w' n8nWebhookUrl md) = true /\
  snd (sendToN8n w md) = Value (JNum 0) /\
  sends (trace (handleIncomingMessage w Scenario.connected message)) = 0%nat.
Proof.
  pose proof (falsy_answer_handled_as_failure
                (Scenario.world (Response 200 (JNum 0)) None)
                (Scenario.world (NetworkError "ECONNREFUSED") None)
                Scenario.connected
                (Scenario.envelope "123@s.whatsapp.net" false
                   (JObj [("conversation", JStr "hello")]))
                {| from := "123"; text := "hello";
                   timestamp := "2024-05-01T12:00:00.000Z";
                   messageId := JStr "3EB0A1"; messageType := "conversation" |}
                200 (JNum 0) eq_refl eq_refl eq_refl eq_refl eq_refl eq_refl)
    as [H1 [_ [_ [_ [_ [H2 _]]]]]].
  split; [reflexivity|]. split; [reflexivity|]. split; [reflexivity|].
  split; [reflexivity|]. split; [reflexivity|]. split; [reflexivity|].
  split; [exact H1|exact H2].
Defined.

(** C3, the relay-reply path: with [isConnected] false, a message whose
    webhook answer resolves to a reply still makes [sendWhatsAppReply] call
    [sock.sendMessage]; the failure of that call is what gets logged.
    [/send], next to it, tests [isConnected] first and calls nothing. *)
Theorem reply_attempted_while_disconnected :
  let w := Scenario.world (Response 200 (JObj [("reply", JStr "hi there")]))
             (Some "Connection Closed") in
  let m := Scenario.upsert [Scenario.envelope "123@s.whatsapp.net" false
                              (JObj [("conversation", JStr "hello")])] in
  isConnected initial = false /\
  trace (onMessagesUpsert w initial m)
  = [Log Info "Incoming message:";
     Post n8nWebhookUrl {| from := "123"; text := "hello";
                           timestamp := "2024-05-01T12:00:00.000Z";
                           messageId := JStr "3EB0A1";
                           messageType := "conversation" |};
     Log Info "Message sent to n8n. Received response:";
     Log Info "Full n8n response:";
     SendMessage (JStr "123@s.whatsapp.net") (JStr "hi there");
     Log Error "Failed to send reply to WhatsApp:"] /\
  sends (trace (onMessagesUpsert w initial m)) = 1%nat /\
  post_send w initial (JObj [("to", JStr "555"); ("text", JStr "ping")])
  = ([], {| status := 503;
            json := JObj [("error", JStr "WhatsApp not connected");
                          ("status", JStr "disconnected")] |}).
Proof.
  split; [reflexivity|]. split; [reflexivity|]. split; reflexivity.
Qed.

(* ================================================================== *)
(** ** [POST /send] *)
(* ================================================================== *)

Lemma get_of_defined (v : value) (k : string) :
  v <> JUndefined -> v <> JNull -> get v k = ret (prop v k).
Proof. destruct v; simpl; intros H1 H2; try reflexivity; congruence. Qed.

(** C9, as stated, fails: a request whose body lacks both [to] and [text],
    made while the connection is not Connected, is answered 503, not 400. *)
Lemma missing_fields_while_disconnected_503 :
  isConnected initial = false /\
  prop (JObj []) "to" = JUndefined /\
  prop (JObj []) "text" = JUndefined /\
  status (snd (post_send Scenario.plain initial (JObj []))) = 503%Z /\
  status (snd (post_send Scenario.plain initial (JObj []))) <> 400%Z.
Proof.
  split; [reflexivity|]. split; [reflexivity|]. split; [reflexivity|].
  split; [reflexivity|discriminate].
Qed.

(** C9 (amended): for every POST /send request with a parsed body: 503
    with exactly {error: "WhatsApp not connected", status: "disconnected"}
    whenever the connection is not Connected, whatever the body holds; 400
    whenever the connection is Connected and the body's [to] or [text] is
    missing (or otherwise falsy); 200 with {success: true, message, to,
    timestamp} when the send goes through; and 500 with {error, details}
    when the underlying send fails. *)
Theorem post_send_statuses (w : World) (st : state) (body : value) :
  body <> JUndefined -> body <> JNull ->
  (isConnected st = false ->
   post_send w st body
   = ([], {| status := 503;
             json := JObj [("error", JStr "WhatsApp not connected");
                           ("status", JStr "disconnected")] |}))
  /\ (isConnected st = true ->
      truthy (prop body "to") = false \/ truthy (prop body "text") = false ->
      post_send w st body
      = ([], {| status := 400;
                json := JObj [("error", JStr "Missing required fields: to, text")] |}))
  /\ (forall to text,
        isConnected st = true ->
        prop body "to" = JStr to -> to <> "" ->
        prop body "text" = JStr text -> text <> "" ->
        let jid := JStr (if includes "@" to then to else to ++ "@s.whatsapp.net") in
        (sock_sendMessage w jid (JStr text) = None ->
         post_send w st body
         = ([SendMessage jid (JStr text); Log Info "Message sent via /send endpoint:"],
            {| status := 200;
               json := JObj [("success", JBool true);
                             ("message", JStr "Message sent successfully");
                             ("to", JStr to);
                             ("timestamp", JStr (now w))] |}))
        /\ (forall reason,
              sock_sendMessage w jid (JStr text) = Some reason ->
              post_send w st body
              = ([SendMessage jid (JStr text);
                  Log Error "Error sending message via /send endpoint:"],
                 {| status := 500;
                    json := JObj [("error", JStr "Failed to send message");
                                  ("details", JStr reason)] |}))).
Proof.
  intros Hu Hn. unfold post_send.
  rewrite (get_of_defined body "to" Hu Hn), bind_ret.
  rewrite (get_of_defined body "text" Hu Hn), bind_ret.
  split; [|split].
  - intros ->. reflexivity.
  - intros -> Hmissing. simpl negb. cbv iota.
    destruct Hmissing as [-> | ->]; [reflexivity|].
    rewrite orb_true_r. reflexivity.
  - intros to text Hc Hto Hne Htext Hne'.
    set (jid := JStr (if includes "@" to then to else to ++ "@s.whatsapp.net")).
    rewrite Hc, Hto, Htext. simpl negb. cbv iota.
    assert (Ht : (to =? "") = false) by (apply String.eqb_neq; exact Hne).
    assert (Ht' : (text =? "") = false) by (apply String.eqb_neq; exact Hne').
    simpl truthy. rewrite Ht, Ht'. simpl negb. simpl orb. cbv iota.
    unfold formatTo, call_sendMessage.
    assert (Hjid : (if includes "@" to then JStr to
                    else JStr (to ++ "@s.whatsapp.net")) = jid)
      by (unfold jid; destruct (includes "@" to); reflexivity).
    rewrite Hjid, bind_ret.
    split.
    + intros Hsent. rewrite Hsent. reflexivity.
    + intros reason Hfail. rewrite Hfail. reflexivity.
Qed.

Lemma post_send_statuses_witness :
  let body := JObj [("to", JStr "555"); ("text", JStr "ping")] in
  let failing := Scenario.world Timeout (Some "Connection Closed") in
  body <> JUndefined /\ body <> JNull /\
  status (snd (post_send Scenario.plain initial body)) = 503%Z /\
  status (snd (post_send Scenario.plain Scenario.connected (JObj [("to", JStr "555")])))
  = 400%Z /\
  post_send Scenario.plain Scenario.connected body
  = ([SendMessage (JStr "555@s.whatsapp.net") (JStr "ping");
      Log Info "Message sent via /send endpoint:"],
     {| status := 200;
        json := JObj [("success", JBool true);
                      ("message", JStr "Message sent successfully");
                      ("to", JStr "555");
                      ("timestamp", JStr "2024-05-01T12:00:00.000Z")] |}) /\
  status (snd (post_send failing Scenario.connected body)) = 500%Z.
Proof.
  assert (Hu : forall fields, JObj fields <> JUndefined) by (intros; discriminate).
  assert (Hn : forall fields, JObj fields <> JNull) by (intros; discriminate).
  assert (Hne : forall c s, String c s <> "") by (intros; discriminate).
  split; [apply Hu|]. split; [apply Hn|]. split; [|split; [|split]].
  - rewrite (proj1 (post_send_statuses Scenario.plain initial
                      (JObj [("to", JStr "555"); ("text", JStr "ping")])
                      (Hu _) (Hn _)) eq_refl).
    reflexivity.
  - rewrite (proj1 (proj2 (post_send_statuses Scenario.plain Scenario.connected
                             (JObj [("to", JStr "555")]) (Hu _) (Hn _)))
               eq_refl (or_intror eq_refl)).
    reflexivity.
  - exact (proj1 (proj2 (proj2 (post_send_statuses Scenario.plain Scenario.connected
                                  (JObj [("to", JStr "555"); ("text", JStr "ping")])
                                  (Hu _) (Hn _)))
                    "555" "ping" eq_refl eq_refl (Hne _ _) eq_refl (Hne _ _))
             eq_refl).
  - rewrite (proj2 (proj2 (proj2 (post_send_statuses
                                    (Scenario.world Timeout (Some "Connection Closed"))
                                    Scenario.connected
                                    (JObj [("to", JStr "555"); ("text", JStr "ping")])
                                    (Hu _) (Hn _)))
                      "555" "ping" eq_refl eq_refl (Hne _ _) eq_refl (Hne _ _))
               "Connection Closed" eq_refl).
    reflexivity.
Defined.

(* ================================================================== *)
(** ** Further properties of the message side *)
(* ================================================================== *)

Section Silence.

Context {A B : Type}.

(** Reading properties and calling string methods performs no effect. *)
Lemma bind_silent (m : M A) (f : A -> M B) :
  fst m = [] -> (forall a, fst (f a) = []) -> fst (bind m f) = [].
Proof.
  destruct m as [t [a|e]]; simpl; intros -> Hf; [|reflexivity].
  specialize (Hf a). destruct (f a) as [t' r]. simpl in *. exact Hf.
Qed.

End Silence.

Lemma get_silent (v : value) (k : string) : fst (get v k) = [].
Proof. destruct v; reflexivity. Qed.

Lemma str_method_silent (v : value) (method : string) : fst (str_method v method) = [].
Proof. destruct v; reflexivity. Qed.

Lemma extractText_silent (content messageType : value) :
  fst (extractText content messageType) = [].
Proof.
  unfold extractText.
  destruct (is_str messageType "conversation").
  { apply bind_silent; [apply get_silent|reflexivity]. }
  destruct (is_str messageType "extendedTextMessage").
  { apply bind_silent; [apply get_silent|intros ext].
    apply bind_silent; [apply get_silent|reflexivity]. }
  destruct (is_str messageType "imageMessage"); [|reflexivity].
  apply bind_silent; [apply get_silent|intros img].
  apply bind_silent; [apply get_silent|intros caption].
  destruct (truthy caption); reflexivity.
Qed.

Lemma normalize_silent (w : World) (message : value) :
  fst (normalize w message) = [].
Proof.
  unfold normalize.
  apply bind_silent; [apply get_silent|intros key].
  apply bind_silent; [apply get_silent|intros sender].
  apply bind_silent; [apply get_silent|intros content].
  apply bind_silent; [apply extractText_silent|intros [t|]]; [|reflexivity].
  apply bind_silent; [apply str_method_silent|intros s].
  apply bind_silent; [apply str_method_silent|intros body].
  apply bind_silent; [apply get_silent|reflexivity].
Qed.

Lemma no_send_among (l : list effect) (jid content : value) :
  filter is_send l = [] -> ~ In (SendMessage jid content) l.
Proof.
  induction l as [|e rest IH]; simpl; intros Hf H; [exact H|].
  destruct H as [H|H].
  - subst e. discriminate Hf.
  - destruct (is_send e); [discriminate Hf|]. exact (IH Hf H).
Qed.

Section Relay.

Variables (w : World) (st : state).

(** What [sendToN8n] does and returns, in all cases. *)
Lemma sendToN8n_cases (md : messageData) :
  exists logs r,
    sendToN8n w md = (Post n8nWebhookUrl md :: logs, Value r)
    /\ filter is_post logs = [] /\ filter is_send logs = []
    /\ ((rejected (axios_post w n8nWebhookUrl md) = true /\ r = JNull)
        \/ (exists code,
              axios_post w n8nWebhookUrl md = Response code r
              /\ rejected (Response code r) = false)).
Proof.
  unfold sendToN8n, rejected.
  destruct (axios_post w n8nWebhookUrl md) as [m| |code data].
  - exists [Log Error "Failed to send message to n8n:"], JNull.
    split; [reflexivity|]. split; [reflexivity|]. split; [reflexivity|].
    left. split; reflexivity.
  - exists [Log Error "Failed to send message to n8n:"], JNull.
    split; [reflexivity|]. split; [reflexivity|]. split; [reflexivity|].
    left. split; reflexivity.
  - destruct ((200 <=? code)%Z && (code <? 300)%Z) eqn:Hok.
    + exists [Log Info "Message sent to n8n. Received response:"], data.
      split; [reflexivity|]. split; [reflexivity|]. split; [reflexivity|].
      right. exists code. rewrite Hok. split; reflexivity.
    + exists [Log Error "Failed to send message to n8n:";
              Log Error "n8n Response Data:"], JNull.
      split; [reflexivity|]. split; [reflexivity|]. split; [reflexivity|].
      left. split; reflexivity.
Qed.

(** The whole trace of the handler for a normalized message. *)
Lemma handle_shape (message : value) (md : messageData) (logs : list effect) (r : value) :
  normalize w message = ret (Some md) ->
  sendToN8n w md = (Post n8nWebhookUrl md :: logs, Value r) ->
  exists slogs,
    sendWhatsAppReply w (prop (prop message "key") "remoteJid") (resolve r)
    = (SendMessage (prop (prop message "key") "remoteJid") (resolve r) :: slogs,
       Value tt)
    /\ filter is_post slogs = [] /\ filter is_send slogs = []
    /\ handleIncomingMessage w st message
       = ((Log Info "Incoming message:" :: Post n8nWebhookUrl md :: logs)
            ++ (if truthy r then [Log Info "Full n8n response:"] else [])
            ++ (if truthy (resolve r)
                then SendMessage (prop (prop message "key") "remoteJid") (resolve r)
                     :: slogs
                else [Log Warn "No reply from n8n or invalid format. Response:"]),
          Value tt)%list.
Proof.
  intros Hn Hs.
  destruct (sendWhatsAppReply_sends w (prop (prop message "key") "remoteJid") (resolve r))
    as [slogs [Hsend [Hp Hsd]]].
  exists slogs. split; [exact Hsend|]. split; [exact Hp|]. split; [exact Hsd|].
  unfold handleIncomingMessage. rewrite Hn, bind_ret, Hs.
  destruct (truthy r) eqn:Hr; simpl; rewrite Hr; simpl.
  - destruct (truthy (resolve r)); simpl.
    + rewrite Hsend. reflexivity.
    + reflexivity.
  - unfold resolve. rewrite Hr. simpl. reflexivity.
Qed.

End Relay.

(** A send inside a trace that opens with a log line and the webhook call
    comes after that call. *)
Lemma send_after_opening_post (opening : effect) (url : string) (md : messageData)
  (rest before after : list effect) (jid content : value) :
  opening :: Post url md :: rest = (before ++ SendMessage jid content :: after)%list ->
  (forall j c, opening <> SendMessage j c) ->
  In (Post url md) before.
Proof.
  intros Heq Hopening.
  destruct before as [|x [|y before']]; simpl in Heq.
  - injection Heq as Hx _. exfalso. exact (Hopening _ _ Hx).
  - injection Heq as _ Hy _. discriminate Hy.
  - injection Heq as _ Hy _. subst y. right. left. reflexivity.
Qed.

(** X1: [handleIncomingMessage] never throws, whatever the message and
    whatever the webhook and the socket do; it calls the webhook at most
    once and sends at most one message, and it sends only after having
    called the webhook: in its trace every [sock.sendMessage] call is
    preceded by the webhook call. *)
Theorem handler_contains_failures (w : World) (st : state) (message : value) :
  snd (handleIncomingMessage w st message) = Value tt
  /\ (sends (trace (handleIncomingMessage w st message))
      <= posts (trace (handleIncomingMessage w st message)))%nat
  /\ (posts (trace (handleIncomingMessage w st message)) <= 1)%nat
  /\ (forall before jid content after,
        trace (handleIncomingMessage w st message)
        = (before ++ SendMessage jid content :: after)%list ->
        exists url md, In (Post url md) before).
Proof.
  pose proof (normalize_silent w message) as Hsilent.
  destruct (normalize w message) as [t [[md|]|e]] eqn:Hn; simpl in Hsilent; subst t.
  - destruct (sendToN8n_cases w md) as [logs [r [Hs [Hp [Hsd _]]]]].
    destruct (handle_shape w st message md logs r Hn Hs)
      as [slogs [_ [Hp' [Hsd' ->]]]].
    unfold posts, sends, trace. cbn [fst snd app filter is_post is_send].
    rewrite !filter_app, Hp, Hsd.
    split; [reflexivity|]. split; [|split].
    + destruct (truthy r); destruct (truthy (resolve r)); simpl;
        rewrite ?Hp', ?Hsd'; simpl; lia.
    + destruct (truthy r); destruct (truthy (resolve r)); simpl;
        rewrite ?Hp', ?Hsd'; simpl; lia.
    + intros before jid content after Heq.
      exists n8nWebhookUrl, md.
      apply (send_after_opening_post _ _ _ _ _ _ _ _ Heq).
      intros j c H. discriminate H.
  - rewrite (handle_dropped w st message Hn). simpl.
    split; [reflexivity|]. unfold posts, sends. simpl.
    split; [lia|]. split; [lia|].
    intros before jid content after Heq.
    destruct before; discriminate Heq.
  - unfold handleIncomingMessage. rewrite Hn. simpl.
    split; [reflexivity|]. unfold posts, sends. simpl.
    split; [lia|]. split; [lia|].
    intros before jid content after Heq.
    destruct before as [|x [|y before']]; discriminate Heq.
Qed.

Lemma handler_contains_failures_witness :
  let message := Scenario.envelope "123@s.whatsapp.net" false
                   (JObj [("conversation", JStr "hello")]) in
  let md := {| from := "123"; text := "hello";
               timestamp := "2024-05-01T12:00:00.000Z";
               messageId := JStr "3EB0A1"; messageType := "conversation" |} in
  let before := [Log Info "Incoming message:";
                 Post n8nWebhookUrl md;
                 Log Info "Message sent to n8n. Received response:";
                 Log Info "Full n8n response:"] in
  trace (handleIncomingMessage Scenario.plain Scenario.connected message)
  = (before ++ SendMessage (JStr "123@s.whatsapp.net") (JStr "hi there")
            :: [Log Info "Sent AI reply to WhatsApp:"])%list /\
  exists url body, In (Post url body) before.
Proof.
  split; [reflexivity|].
  exact (proj2 (proj2 (proj2
    (handler_contains_failures Scenario.plain Scenario.connected
       (Scenario.envelope "123@s.whatsapp.net" false
          (JObj [("conversation", JStr "hello")])))))
    [Log Info "Incoming message:";
     Post n8nWebhookUrl {| from := "123"; text := "hello";
                           timestamp := "2024-05-01T12:00:00.000Z";
                           messageId := JStr "3EB0A1";
                           messageType := "conversation" |};
     Log Info "Message sent to n8n. Received response:";
     Log Info "Full n8n response:"]
    (JStr "123@s.whatsapp.net") (JStr "hi there")
    [Log Info "Sent AI reply to WhatsApp:"] eq_refl).
Defined.

(** X2: [sendToN8n] never throws and never retries: it makes exactly one
    POST, to the configured URL with the given body, and sends nothing;
    what it returns is [null] or the body of an answer whose status lies
    in [200, 300). *)
Theorem relay_posts_exactly_once (w : World) (md : messageData) :
  exists logs r,
    sendToN8n w md = (Post n8nWebhookUrl md :: logs, Value r)
    /\ posts (trace (sendToN8n w md)) = 1%nat
    /\ sends (trace (sendToN8n w md)) = 0%nat
    /\ (r <> JNull ->
        exists code,
          axios_post w n8nWebhookUrl md = Response code r
          /\ (200 <= code < 300)%Z).
Proof.
  destruct (sendToN8n_cases w md) as [logs [r [Hs [Hp [Hsd Hr]]]]].
  exists logs, r. rewrite Hs. unfold posts, sends, trace. simpl.
  rewrite Hp, Hsd. split; [reflexivity|]. split; [reflexivity|].
  split; [reflexivity|].
  intros Hnn. destruct Hr as [[_ ->]|[code [Hans Hok]]]; [contradiction|].
  exists code. split; [exact Hans|].
  unfold rejected in Hok. apply negb_false_iff, andb_prop in Hok as [H1 H2].
  apply Z.leb_le in H1. apply Z.ltb_lt in H2. lia.
Qed.

(** X3: [sendWhatsAppReply] never throws and calls [sock.sendMessage]
    exactly once.  It logs success exactly when the call resolves and the
    reply is a string; a reply that is not a string is handed to the
    socket and then, although the call resolved, logged as a failure. *)
Theorem reply_send_outcomes (w : World) (to content : value) :
  snd (sendWhatsAppReply w to content) = Value tt
  /\ sends (trace (sendWhatsAppReply w to content)) = 1%nat
  /\ (In (Log Info "Sent AI reply to WhatsApp:") (trace (sendWhatsAppReply w to content))
      <-> sock_sendMessage w to content = None /\ exists s, content = JStr s)
  /\ (sock_sendMessage w to content = None ->
      (forall s, content <> JStr s) ->
      trace (sendWhatsAppReply w to content)
      = [SendMessage to content; Log Error "Failed to send reply to WhatsApp:"]).
Proof.
  unfold sendWhatsAppReply, call_sendMessage, sends, trace. simpl.
  destruct (sock_sendMessage w to content) as [m|] eqn:Hsock; simpl.
  - split; [reflexivity|]. split; [reflexivity|]. split.
    + split.
      * intros [H|[H|[]]]; discriminate H.
      * intros [H _]. discriminate H.
    + intros H. discriminate H.
  - assert (Hcases : (exists s, content = JStr s) \/ (forall s, content <> JStr s)).
    { destruct content; try (right; intros s H; discriminate H).
      left. eexists. reflexivity. }
    destruct Hcases as [[s ->]|Hns].
    + simpl. split; [reflexivity|]. split; [reflexivity|]. split.
      * split; [intros _; split; [reflexivity|exists s; reflexivity]
               |intros _; right; left; reflexivity].
      * intros _ H. exfalso. exact (H s eq_refl).
    + assert (Hthrow : exists why, str_method content "text.substring"
                                   = throw (TypeError why)).
      { destruct content; try (eexists; reflexivity).
        exfalso. exact (Hns _ eq_refl). }
      destruct Hthrow as [why ->]. simpl.
      split; [reflexivity|]. split; [reflexivity|]. split.
      * split; [intros [H|[H|[]]]; discriminate H
               |intros [_ [s Hs]]; exfalso; exact (Hns s Hs)].
      * intros _ _. reflexivity.
Qed.

(** X4: whenever [handleIncomingMessage] sends a message, the message was
    normalized, the webhook answered it with a status in [200, 300), the
    text sent is what [resolve] extracts from that answer (a truthy
    value), and the target is the message's own [key.remoteJid], suffix
    included. *)
Theorem reply_goes_back_to_sender
  (w : World) (st : state) (message jid content : value) :
  In (SendMessage jid content) (trace (handleIncomingMessage w st message)) ->
  jid = prop (prop message "key") "remoteJid"
  /\ truthy content = true
  /\ exists md code data,
       normalize w message = ret (Some md)
       /\ axios_post w n8nWebhookUrl md = Response code data
       /\ rejected (Response code data) = false
       /\ content = resolve data.
Proof.
  pose proof (normalize_silent w message) as Hsilent.
  destruct (normalize w message) as [t [[md|]|e]] eqn:Hn; simpl in Hsilent; subst t.
  - destruct (sendToN8n_cases w md) as [logs [r [Hs [_ [Hsd Hr]]]]].
    destruct (handle_shape w st message md logs r Hn Hs)
      as [slogs [_ [_ [Hsd' ->]]]].
    unfold trace. simpl fst. intros Hin.
    destruct Hin as [H|[H|Hin]]; try discriminate H.
    apply in_app_or in Hin as [Hin|Hin];
      [exfalso; exact (no_send_among logs jid content Hsd Hin)|].
    apply in_app_or in Hin as [Hin|Hin].
    { destruct (truthy r); [destruct Hin as [H|[]]; discriminate H|destruct Hin]. }
    destruct (truthy (resolve r)) eqn:Hres.
    + destruct Hin as [H|Hin];
        [|exfalso; exact (no_send_among slogs jid content Hsd' Hin)].
      injection H as <- <-. split; [reflexivity|]. split; [exact Hres|].
      destruct Hr as [[_ ->]|[code [Hans Hok]]]; [discriminate Hres|].
      exists md, code, r. repeat split; assumption.
    + destruct Hin as [H|[]]. discriminate H.
  - rewrite (handle_dropped w st message Hn). intros [].
  - unfold handleIncomingMessage. rewrite Hn. simpl.
    intros [H|[]]. discriminate H.
Qed.

Lemma reply_goes_back_to_sender_witness :
  let message := Scenario.envelope "123@s.whatsapp.net" false
                   (JObj [("conversation", JStr "hello")]) in
  In (SendMessage (JStr "123@s.whatsapp.net") (JStr "hi there"))
     (trace (handleIncomingMessage Scenario.plain Scenario.connected message)) /\
  JStr "123@s.whatsapp.net" = prop (prop message "key") "remoteJid" /\
  truthy (JStr "hi there") = true.
Proof.
  assert (Hin : In (SendMessage (JStr "123@s.whatsapp.net") (JStr "hi there"))
                  (trace (handleIncomingMessage Scenario.plain Scenario.connected
                            (Scenario.envelope "123@s.whatsapp.net" false
                               (JObj [("conversation", JStr "hello")])))))
    by (simpl; tauto).
  split; [exact Hin|].
  destruct (reply_goes_back_to_sender Scenario.plain Scenario.connected _ _ _ Hin)
    as [Hjid [Htruthy _]].
  split; [exact Hjid|exact Htruthy].
Defined.

Lemma reply_send_outcomes_witness :
  sock_sendMessage Scenario.plain (JStr "123@s.whatsapp.net") (JNum 42) = None /\
  (forall s, JNum 42 <> JStr s) /\
  trace (sendWhatsAppReply Scenario.plain (JStr "123@s.whatsapp.net") (JNum 42))
  = [SendMessage (JStr "123@s.whatsapp.net") (JNum 42);
     Log Error "Failed to send reply to WhatsApp:"].
Proof.
  assert (Hns : forall s, JNum 42 <> JStr s) by (intros s H; discriminate H).
  split; [reflexivity|]. split; [exact Hns|].
  exact (proj2 (proj2 (proj2 (reply_send_outcomes Scenario.plain
                                (JStr "123@s.whatsapp.net") (JNum 42))))
           eq_refl Hns).
Defined.

(* ================================================================== *)
(** ** Further properties of the [messages.upsert] handler *)
(* ================================================================== *)

Lemma handle_returns (w : World) (st : state) (message : value) :
  snd (handleIncomingMessage w st message) = Value tt.
Proof.
  unfold handleIncomingMessage, try_catch.
  match goal with |- snd (match ?body with _ => _ end) = _ =>
    destruct body as [t [[]|e]] end; reflexivity.
Qed.

Lemma truthy_not_nullish (v : value) :
  truthy v = true -> v <> JUndefined /\ v <> JNull.
Proof. destruct v; simpl; intros H; split; congruence. Qed.

(** X5: an upsert whose [type] is not ['notify'] (history sync, appended
    messages) has no effect at all: nothing is posted, sent or logged. *)
Theorem only_notify_is_handled (w : World) (st : state) (m : value) :
  is_str (prop m "type") "notify" = false ->
  trace (onMessagesUpsert w st m) = [].
Proof.
  intros Htype. unfold trace, onMessagesUpsert.
  apply bind_silent; [apply get_silent|intros messages].
  destruct (negb (truthy messages) || negb (truthy (index0 messages)));
    [reflexivity|].
  apply bind_silent; [apply get_silent|intros key].
  apply bind_silent; [apply get_silent|intros fromMe].
  rewrite Htype, andb_false_r. reflexivity.
Qed.

Lemma only_notify_is_handled_witness :
  let m := JObj [("messages",
                  JArr [Scenario.envelope "123@s.whatsapp.net" false
                          (JObj [("conversation", JStr "hello")])]);
                 ("type", JStr "append")] in
  is_str (prop m "type") "notify" = false /\
  trace (onMessagesUpsert Scenario.plain Scenario.connected m) = [].
Proof.
  split; [reflexivity|].
  exact (only_notify_is_handled Scenario.plain Scenario.connected
           (JObj [("messages",
                   JArr [Scenario.envelope "123@s.whatsapp.net" false
                           (JObj [("conversation", JStr "hello")])]);
                  ("type", JStr "append")])
           eq_refl).
Defined.

(** X6: of a batch only the first message counts: two upsert events with
    the same [type] and the same first message are handled alike, whatever
    else their [messages] hold. *)
Theorem only_first_message_is_handled (w : World) (st : state) (m m' : value) :
  truthy (index0 (prop m "messages")) = true ->
  index0 (prop m' "messages") = index0 (prop m "messages") ->
  prop m' "type" = prop m "type" ->
  onMessagesUpsert w st m' = onMessagesUpsert w st m.
Proof.
  intros Hfirst Hsame Htype.
  assert (Hfirst' : truthy (index0 (prop m' "messages")) = true)
    by (rewrite Hsame; exact Hfirst).
  assert (Hlist : forall x, truthy (index0 (prop x "messages")) = true ->
                    truthy (prop x "messages") = true
                    /\ get x "messages" = ret (prop x "messages")).
  { intros x Hx.
    destruct (index0_defined (prop x "messages") (truthy_defined _ Hx)) as [Ht Hd].
    split; [exact Ht|]. exact (get_of_object x "messages" "messages" Hd). }
  destruct (Hlist m Hfirst) as [Ht Hg].
  destruct (Hlist m' Hfirst') as [Ht' Hg'].
  unfold onMessagesUpsert.
  rewrite Hg, Hg', !bind_ret, Ht, Ht', Hsame, Htype. reflexivity.
Qed.

Lemma only_first_message_is_handled_witness :
  let first := Scenario.envelope "123@s.whatsapp.net" false
                 (JObj [("conversation", JStr "one")]) in
  let second := Scenario.envelope "456@s.whatsapp.net" false
                  (JObj [("conversation", JStr "two")]) in
  truthy (index0 (prop (Scenario.upsert [first]) "messages")) = true /\
  onMessagesUpsert Scenario.plain Scenario.connected (Scenario.upsert [first; second])
  = onMessagesUpsert Scenario.plain Scenario.connected (Scenario.upsert [first]).
Proof.
  split; [reflexivity|].
  exact (only_first_message_is_handled Scenario.plain Scenario.connected
           (Scenario.upsert [Scenario.envelope "123@s.whatsapp.net" false
                               (JObj [("conversation", JStr "one")])])
           (Scenario.upsert [Scenario.envelope "123@s.whatsapp.net" false
                               (JObj [("conversation", JStr "one")]);
                             Scenario.envelope "456@s.whatsapp.net" false
                               (JObj [("conversation", JStr "two")])])
           eq_refl eq_refl eq_refl).
Defined.

(** X7: the [messages.upsert] handler lets an exception escape exactly
    when the first message is there but has no [key]; in every other case
    it returns, because [handleIncomingMessage] catches its own failures. *)
Theorem upsert_throws_only_without_key (w : World) (st : state) (m : value) :
  m <> JUndefined -> m <> JNull ->
  let message := index0 (prop m "messages") in
  (exists e, snd (onMessagesUpsert w st m) = Raise e)
  <-> truthy (prop m "messages") = true
      /\ truthy message = true
      /\ (prop message "key" = JUndefined \/ prop message "key" = JNull).
Proof.
  intros Hu Hn message. unfold onMessagesUpsert.
  rewrite (get_of_defined m "messages" Hu Hn), bind_ret. fold message.
  destruct (truthy (prop m "messages")) eqn:Hlist; simpl.
  2:{ split; [intros [e H]; discriminate H|intros [H _]; discriminate H]. }
  destruct (truthy message) eqn:Hmsg; simpl.
  2:{ split; [intros [e H]; discriminate H|intros [_ [H _]]; discriminate H]. }
  destruct (truthy_not_nullish message Hmsg) as [Hmu Hmn].
  rewrite (get_of_defined message "key" Hmu Hmn), bind_ret.
  destruct (prop message "key") as [| |b|n|s|items|fields] eqn:Hkey;
    try solve [split; [intros _; split; [reflexivity|split; [reflexivity|auto]]
                      |intros _; eexists; reflexivity]];
    (split; [|intros [_ [_ [H|H]]]; discriminate H]);
    match goal with
    | |- context [get ?k "fromMe"] =>
        change (get k "fromMe") with (ret (prop k "fromMe"))
    end;
    rewrite bind_ret;
    match goal with |- context [if ?c then _ else _] => destruct c end;
    try rewrite handle_returns; intros [e H]; discriminate H.
Qed.

Lemma upsert_throws_only_without_key_witness :
  let m := Scenario.upsert [JObj [("message", JObj [("conversation", JStr "hello")])]] in
  m <> JUndefined /\ m <> JNull /\
  exists e, snd (onMessagesUpsert Scenario.plain Scenario.connected m) = Raise e.
Proof.
  assert (Hu : Scenario.upsert [JObj [("message", JObj [("conversation", JStr "hello")])]]
               <> JUndefined) by discriminate.
  assert (Hn : Scenario.upsert [JObj [("message", JObj [("conversation", JStr "hello")])]]
               <> JNull) by discriminate.
  split; [exact Hu|]. split; [exact Hn|].
  apply (proj2 (upsert_throws_only_without_key Scenario.plain Scenario.connected
                  _ Hu Hn)).
  split; [reflexivity|]. split; [reflexivity|]. left. reflexivity.
Defined.

(** X8: the message type is the first key of [message.message] alone: a
    message whose first key is not one of the three recognized types is
    dropped without any effect, even when a [conversation] text is present
    under a later key. *)
Theorem first_key_alone_decides
  (w : World) (st : state) (message keyv v : value) (sender k body : string)
  (others : list (string * value)) :
  prop message "key" = keyv ->
  prop keyv "remoteJid" = JStr sender ->
  prop message "message" = JObj ((k, v) :: others) ->
  k <> "conversation" -> k <> "extendedTextMessage" -> k <> "imageMessage" ->
  lookup "conversation" others = Some (JStr body) ->
  prop (prop message "message") "conversation" = JStr body
  /\ handleIncomingMessage w st message = ret tt.
Proof.
  intros Hkey Hjid Hcontent H1 H2 H3 Hlater.
  apply String.eqb_neq in H1, H2, H3.
  split.
  - rewrite Hcontent. simpl. rewrite H1, Hlater. reflexivity.
  - apply handle_dropped.
    apply (normalize_unrecognized w message keyv _ sender Hkey Hjid Hcontent).
    unfold unrecognized. simpl. rewrite H1, H2, H3. repeat split.
Qed.

Lemma first_key_alone_decides_witness :
  let message := Scenario.envelope "123@s.whatsapp.net" false
                   (JObj [("senderKeyDistributionMessage", JObj []);
                          ("conversation", JStr "hello")]) in
  prop (prop message "message") "conversation" = JStr "hello" /\
  handleIncomingMessage Scenario.plain Scenario.connected message = ret tt.
Proof.
  assert (Hne : forall a b : string, (a =? b) = false -> a <> b)
    by (intros a b; apply String.eqb_neq).
  exact (first_key_alone_decides Scenario.plain Scenario.connected
           (Scenario.envelope "123@s.whatsapp.net" false
              (JObj [("senderKeyDistributionMessage", JObj []);
                     ("conversation", JStr "hello")]))
           _ (JObj []) "123@s.whatsapp.net" "senderKeyDistributionMessage" "hello"
           [("conversation", JStr "hello")]
           eq_refl eq_refl eq_refl
           (Hne "senderKeyDistributionMessage" "conversation" eq_refl)
           (Hne "senderKeyDistributionMessage" "extendedTextMessage" eq_refl)
           (Hne "senderKeyDistributionMessage" "imageMessage" eq_refl)
           eq_refl).
Defined.

(** X9: a message of type [conversation] whose text is not a string, or
    whose [key.remoteJid] is not a string, makes the handler fail inside
    its [try]: it logs one error and posts nothing to the webhook. *)
Theorem malformed_text_or_sender_is_logged
  (w : World) (st : state) (message text : value)
  (keyf others : list (string * value)) :
  prop message "key" = JObj keyf ->
  prop message "message" = JObj (("conversation", text) :: others) ->
  (forall s, text <> JStr s) \/ (forall s, prop (JObj keyf) "remoteJid" <> JStr s) ->
  handleIncomingMessage w st message
  = ([Log Error "Error handling incoming message:"], Value tt).
Proof.
  intros Hkey Hcontent Hbad.
  assert (Hdef : prop message "key" <> JUndefined) by (rewrite Hkey; discriminate).
  assert (Hthrows : exists e, normalize w message = throw e).
  { unfold normalize.
    rewrite (get_of_object message "key" "key" Hdef), bind_ret, Hkey.
    change (get (JObj keyf) "remoteJid") with (ret (prop (JObj keyf) "remoteJid")).
    rewrite bind_ret.
    rewrite (get_of_object message "key" "message" Hdef), bind_ret, Hcontent.
    simpl first_key. unfold extractText. simpl is_str. cbv iota.
    change (get (JObj (("conversation", text) :: others)) "conversation")
      with (ret text).
    rewrite !bind_ret.
    destruct (prop (JObj keyf) "remoteJid") as [| |b|n|s|items|fields] eqn:Hjid;
      try (eexists; reflexivity).
    destruct Hbad as [Hbad|Hbad]; [|exfalso; exact (Hbad s eq_refl)].
    simpl str_method. rewrite bind_ret.
    destruct text; try (eexists; reflexivity).
    exfalso. exact (Hbad _ eq_refl). }
  destruct Hthrows as [e Hn].
  unfold handleIncomingMessage. rewrite Hn. reflexivity.
Qed.

Lemma malformed_text_or_sender_is_logged_witness :
  let message := JObj [("key", JObj [("remoteJid", JStr "123@s.whatsapp.net")]);
                       ("message", JObj [("conversation", JNull)])] in
  (forall s, JNull <> JStr s) /\
  handleIncomingMessage Scenario.plain Scenario.connected message
  = ([Log Error "Error handling incoming message:"], Value tt).
Proof.
  assert (Hns : forall s, JNull <> JStr s) by (intros s H; discriminate H).
  split; [exact Hns|].
  exact (malformed_text_or_sender_is_logged Scenario.plain Scenario.connected
           (JObj [("key", JObj [("remoteJid", JStr "123@s.whatsapp.net")]);
                  ("message", JObj [("conversation", JNull)])])
           JNull [("remoteJid", JStr "123@s.whatsapp.net")] []
           eq_refl eq_refl (or_introl Hns)).
Defined.

(* ================================================================== *)
(** ** Sender and target addresses *)
(* ================================================================== *)

Lemma includes_eq (pat s : string) :
  includes pat s =
  if prefix pat s then true
  else match s with
       | "" => false
       | String _ rest => includes pat rest
       end.
Proof. destruct s; reflexivity. Qed.

Lemma includes_app_r (pat s tail : string) :
  includes pat tail = true -> includes pat (s ++ tail) = true.
Proof.
  intros H. induction s as [|c s IH]; [exact H|].
  change (String c s ++ tail) with (String c (s ++ tail)).
  rewrite includes_eq. destruct (prefix pat (String c (s ++ tail))); [reflexivity|].
  exact IH.
Qed.

Lemma free_of_not_included (c : ascii) (p s : string) :
  free_of c s = true -> includes (String c p) s = false.
Proof.
  induction s as [|d rest IH]; simpl free_of; intros H; [reflexivity|].
  apply andb_prop in H as [Hd Hrest]. apply negb_true_iff in Hd.
  rewrite includes_eq, (prefix_other_head _ _ _ _ Hd). exact (IH Hrest).
Qed.

Lemma replace_not_included (pat repl s : string) :
  includes pat s = false -> replace pat repl s = s.
Proof.
  induction s as [|c rest IH]; rewrite includes_eq, replace_eq;
    destruct (prefix pat _); try discriminate; intros H; [reflexivity|].
  f_equal. exact (IH H).
Qed.

(** X10: the target [/send] computes from a string [to] always holds an
    [@]: a [to] that holds one is used as it is, any other gets
    [@s.whatsapp.net] appended; formatting the result again changes
    nothing. *)
Theorem formatted_target_is_qualified (to : string) :
  exists jid,
    formatTo (JStr to) = ret (JStr jid)
    /\ includes "@" jid = true
    /\ (includes "@" to = true -> jid = to)
    /\ (includes "@" to = false -> jid = to ++ "@s.whatsapp.net")
    /\ formatTo (JStr jid) = ret (JStr jid).
Proof.
  unfold formatTo. destruct (includes "@" to) eqn:Hat.
  - exists to. rewrite Hat. repeat split; auto. discriminate.
  - exists (to ++ "@s.whatsapp.net").
    assert (Hq : includes "@" (to ++ "@s.whatsapp.net") = true)
      by (apply includes_app_r; reflexivity).
    rewrite Hq. repeat split; auto. discriminate.
Qed.

(** X11: [cleanFrom] cuts nothing off an address that holds neither
    [@s.whatsapp.net] nor [@c.us]: a group or broadcast address reaches
    the webhook with its suffix. *)
Theorem other_addresses_pass_unchanged (sender : string) :
  includes "@s.whatsapp.net" sender = false ->
  includes "@c.us" sender = false ->
  cleanFrom sender = sender.
Proof.
  intros H1 H2. unfold cleanFrom.
  rewrite (replace_not_included _ _ _ H1). exact (replace_not_included _ _ _ H2).
Qed.

Lemma other_addresses_pass_unchanged_witness :
  includes "@s.whatsapp.net" "120363041234567890@g.us" = false /\
  includes "@c.us" "120363041234567890@g.us" = false /\
  cleanFrom "120363041234567890@g.us" = "120363041234567890@g.us".
Proof.
  split; [reflexivity|]. split; [reflexivity|].
  exact (other_addresses_pass_unchanged "120363041234567890@g.us" eq_refl eq_refl).
Defined.

(** X12: the [from] the webhook receives, given back as [to] to [/send],
    addresses the sender again: for a sender [id@s.whatsapp.net] the target
    is the sender's own address; for a sender [id@c.us] the target is
    [id@s.whatsapp.net]. *)
Theorem from_round_trips_through_send (id : string) :
  free_of "@" id = true ->
  formatTo (JStr (cleanFrom (id ++ "@s.whatsapp.net")))
  = ret (JStr (id ++ "@s.whatsapp.net"))
  /\ formatTo (JStr (cleanFrom (id ++ "@c.us")))
     = ret (JStr (id ++ "@s.whatsapp.net")).
Proof.
  intros Hid. destruct (cleanFrom_strips id Hid) as [-> ->].
  unfold formatTo. rewrite (free_of_not_included "@" "" id Hid).
  split; reflexivity.
Qed.

Lemma from_round_trips_through_send_witness :
  free_of "@" "4915112345678" = true /\
  formatTo (JStr (cleanFrom "4915112345678@s.whatsapp.net"))
  = ret (JStr "4915112345678@s.whatsapp.net").
Proof.
  split; [reflexivity|].
  exact (proj1 (from_round_trips_through_send "4915112345678" eq_refl)).
Defined.

(* ================================================================== *)
(** ** Further properties of [POST /send] *)
(* ================================================================== *)

Lemma formatTo_silent (to : value) : fst (formatTo to) = [].
Proof.
  destruct to; reflexivity.
Qed.

Ltac pick_status :=
  first [left; reflexivity
        |right; left; reflexivity
        |right; right; left; reflexivity
        |right; right; right; reflexivity].

Ltac settle_send :=
  cbn [fst snd status];
  split; [pick_status|];
  split; [reflexivity|];
  split; [unfold sends; simpl; lia|];
  split; [try (intros H; discriminate H)
         |try (intros [H|H]; discriminate H); try (intros _; reflexivity)].

(** X13: [POST /send] always answers, with 200, 400, 500 or 503; it never
    calls the webhook and sends at most one message.  It answers 200 only
    after one [sock.sendMessage] call that resolved, made while connected
    with a string text; with 503 and 400 nothing was sent or logged. *)
Theorem send_endpoint_answers (w : World) (st : state) (body : value) :
  let t := fst (post_send w st body) in
  let r := snd (post_send w st body) in
  (status r = 200 \/ status r = 400 \/ status r = 500 \/ status r = 503)%Z
  /\ posts t = 0%nat
  /\ (sends t <= 1)%nat
  /\ (status r = 200%Z ->
      exists jid text,
        t = [SendMessage jid (JStr text); Log Info "Message sent via /send endpoint:"]
        /\ sock_sendMessage w jid (JStr text) = None
        /\ isConnected st = true)
  /\ (status r = 503%Z \/ status r = 400%Z -> t = []).
Proof.
  unfold post_send.
  pose proof (get_silent body "to") as Hs1.
  destruct (get body "to") as [t1 [to|e]]; simpl in Hs1; subst t1;
    [|solve [settle_send]].
  fold (ret to). rewrite bind_ret.
  pose proof (get_silent body "text") as Hs2.
  destruct (get body "text") as [t2 [text|e]]; simpl in Hs2; subst t2;
    [|solve [settle_send]].
  fold (ret text). rewrite bind_ret.
  destruct (isConnected st) eqn:Hconn; [|solve [settle_send]].
  cbn [negb].
  destruct (negb (truthy to) || negb (truthy text)); [solve [settle_send]|].
  pose proof (formatTo_silent to) as Hs3.
  destruct (formatTo to) as [t3 [jid|e]]; simpl in Hs3; subst t3;
    [|solve [settle_send]].
  fold (ret jid). rewrite bind_ret. unfold call_sendMessage.
  destruct (sock_sendMessage w jid text) as [reason|] eqn:Hsock;
    [simpl; solve [settle_send]|].
  destruct text as [| |b|n|s|items|fields]; simpl; try solve [settle_send].
  cbn [fst snd status].
  split; [pick_status|]. split; [reflexivity|].
  split; [unfold sends; simpl; lia|]. split.
  - intros _. exists jid, s. repeat split. exact Hsock.
  - intros [H|H]; discriminate H.
Qed.

(** X14: a truthy [to] that is neither a string nor an array (a phone
    number given as a JSON number, say) has no [includes] method: while
    connected the request is answered 500 and nothing is sent. *)
Theorem unusable_target_answers_500
  (w : World) (st : state) (body to : value) :
  body <> JUndefined -> body <> JNull ->
  isConnected st = true ->
  prop body "to" = to ->
  truthy to = true ->
  (forall s, to <> JStr s) -> (forall items, to <> JArr items) ->
  truthy (prop body "text") = true ->
  fst (post_send w st body) = [Log Error "Error sending message via /send endpoint:"]
  /\ status (snd (post_send w st body)) = 500%Z.
Proof.
  intros Hu Hn Hconn Hto Htruthy Hns Hna Htext. unfold post_send.
  rewrite (get_of_defined body "to" Hu Hn), bind_ret.
  rewrite (get_of_defined body "text" Hu Hn), bind_ret.
  rewrite Hconn, Hto, Htruthy, Htext. cbn [negb orb].
  destruct to as [| |b|n|s|items|fields];
    try discriminate Htruthy;
    try (exfalso; exact (Hns _ eq_refl));
    try (exfalso; exact (Hna _ eq_refl));
    split; reflexivity.
Qed.

Lemma unusable_target_answers_500_witness :
  let body := JObj [("to", JNum 4915112345678); ("text", JStr "ping")] in
  isConnected Scenario.connected = true /\
  truthy (JNum 4915112345678) = true /\
  fst (post_send Scenario.plain Scenario.connected body)
  = [Log Error "Error sending message via /send endpoint:"] /\
  status (snd (post_send Scenario.plain Scenario.connected body)) = 500%Z.
Proof.
  split; [reflexivity|]. split; [reflexivity|].
  apply (unusable_target_answers_500 Scenario.plain Scenario.connected
           (JObj [("to", JNum 4915112345678); ("text", JStr "ping")])
           (JNum 4915112345678));
    try reflexivity; try discriminate; intros x H; discriminate H.
Defined.

(** X15: a truthy [text] that is not a string is handed to
    [sock.sendMessage] all the same; when that call resolves, the log line
    that follows throws on [text.substring], so the request is answered 500
    although the message went out. *)
Theorem non_string_text_sent_then_500
  (w : World) (st : state) (body text : value) (to : string) :
  isConnected st = true ->
  prop body "to" = JStr to -> to <> "" ->
  prop body "text" = text ->
  truthy text = true ->
  (forall s, text <> JStr s) ->
  let jid := JStr (if includes "@" to then to else to ++ "@s.whatsapp.net") in
  sock_sendMessage w jid text = None ->
  fst (post_send w st body)
  = [SendMessage jid text; Log Error "Error sending message via /send endpoint:"]
  /\ status (snd (post_send w st body)) = 500%Z.
Proof.
  intros Hconn Hto Hne Htext Htruthy Hns jid Hsock.
  assert (Hdef : prop body "to" <> JUndefined) by (rewrite Hto; discriminate).
  unfold post_send.
  rewrite (get_of_object body "to" "to" Hdef), bind_ret.
  rewrite (get_of_object body "to" "text" Hdef), bind_ret.
  rewrite Hconn, Hto, Htext, Htruthy.
  assert (Ht : (to =? "") = false) by (apply String.eqb_neq; exact Hne).
  simpl truthy. rewrite Ht. cbn [negb orb].
  unfold formatTo, call_sendMessage.
  assert (Hjid : (if includes "@" to then JStr to
                  else JStr (to ++ "@s.whatsapp.net")) = jid)
    by (unfold jid; destruct (includes "@" to); reflexivity).
  rewrite Hjid, bind_ret, Hsock.
  destruct text as [| |b|n|s|items|fields];
    try discriminate Htruthy;
    try (exfalso; exact (Hns _ eq_refl));
    split; reflexivity.
Qed.

Lemma non_string_text_sent_then_500_witness :
  let body := JObj [("to", JStr "555"); ("text", JNum 42)] in
  isConnected Scenario.connected = true /\
  truthy (JNum 42) = true /\
  sock_sendMessage Scenario.plain (JStr "555@s.whatsapp.net") (JNum 42) = None /\
  fst (post_send Scenario.plain Scenario.connected body)
  = [SendMessage (JStr "555@s.whatsapp.net") (JNum 42);
     Log Error "Error sending message via /send endpoint:"] /\
  status (snd (post_send Scenario.plain Scenario.connected body)) = 500%Z.
Proof.
  split; [reflexivity|]. split; [reflexivity|]. split; [reflexivity|].
  apply (non_string_text_sent_then_500 Scenario.plain Scenario.connected
           (JObj [("to", JStr "555"); ("text", JNum 42)]) (JNum 42) "555");
    try reflexivity; try discriminate; intros x H; discriminate H.
Defined.

(* ================================================================== *)
(** ** Further properties of the connection side *)
(* ================================================================== *)

Section ConnectionRuns.

Variable w : World.

Lemma step_connected (st : state) (e : event) :
  isConnected (step w st e) = true ->
  isConnected st = true
  \/ exists u, e = ConnectionUpdate u /\ connection u = Some "open".
Proof.
  destruct e as [u|i ok]; simpl step.
  - unfold onConnectionUpdate.
    destruct (connection u) as [c|] eqn:Hc.
    + destruct (c =? "close"); [simpl; discriminate|].
      destruct (c =? "open") eqn:Hopen.
      * apply String.eqb_eq in Hopen. subst c. intros _. right.
        exists u. split; [reflexivity|exact Hc].
      * rewrite storeQR_isConnected. intros H. left. exact H.
    + rewrite storeQR_isConnected. intros H. left. exact H.
  - destruct (i <? List.length (timers st))%nat; [|intros H; left; exact H].
    unfold connectToWhatsApp. destruct ok; simpl; intros H; left; exact H.
Qed.

Lemma remove_nth_Forall {A} (P : A -> Prop) (i : nat) (l : list A) :
  Forall P l -> Forall P (remove_nth i l).
Proof.
  intros H. revert i. induction H as [|x rest Hx Hrest IH]; intros i.
  - destruct i; constructor.
  - destruct i; simpl; [exact Hrest|]. constructor; [exact Hx|apply IH].
Qed.

Lemma step_delays (st : state) (e : event) :
  Forall (fun d => d = 5000%Z \/ d = 10000%Z) (timers st) ->
  Forall (fun d => d = 5000%Z \/ d = 10000%Z) (timers (step w st e)).
Proof.
  intros H. destruct e as [u|i ok]; simpl step.
  - unfold onConnectionUpdate.
    destruct (connection u) as [c|].
    + destruct (c =? "close"); simpl.
      * rewrite storeQR_timers.
        destruct (shouldReconnect (statusCode u)); [constructor; auto|exact H].
      * destruct (c =? "open"); simpl; rewrite storeQR_timers; exact H.
    + rewrite storeQR_timers. exact H.
  - destruct (i <? List.length (timers st))%nat; [|exact H].
    unfold connectToWhatsApp. destruct ok; simpl.
    + apply remove_nth_Forall. exact H.
    + constructor; [auto|]. apply remove_nth_Forall. exact H.
Qed.

Lemma run_cons (st : state) (e : event) (es : list event) :
  run w st (e :: es) = run w (step w st e) es.
Proof. reflexivity. Qed.

End ConnectionRuns.

(** X16: [isConnected] is never true without an open update: in every
    state reached from process start in which the bridge reports itself
    connected, some update with [connection === 'open'] was delivered. *)
Theorem connected_only_after_open (w : World) (es : list event) :
  isConnected (run w initial es) = true ->
  exists u, In (ConnectionUpdate u) es /\ connection u = Some "open".
Proof.
  assert (Hgen : forall es st,
             isConnected (run w st es) = true ->
             isConnected st = true
             \/ exists u, In (ConnectionUpdate u) es /\ connection u = Some "open").
  { clear es. induction es as [|e rest IH]; intros st H; [left; exact H|].
    rewrite run_cons in H.
    destruct (IH _ H) as [Hstep|[u [Hin Hu]]].
    - destruct (step_connected w st e Hstep) as [Hst|[u [-> Hu]]];
        [left; exact Hst|].
      right. exists u. split; [left; reflexivity|exact Hu].
    - right. exists u. split; [right; exact Hin|exact Hu]. }
  intros H. destruct (Hgen es initial H) as [Hinit|Hex]; [discriminate Hinit|exact Hex].
Qed.

Lemma connected_only_after_open_witness :
  let es := [PairingChallengeIssued "abc123"; Opened] in
  isConnected (run Scenario.plain initial es) = true /\
  exists u, In (ConnectionUpdate u) es /\ connection u = Some "open".
Proof.
  split; [reflexivity|].
  exact (connected_only_after_open Scenario.plain
           [PairingChallengeIssued "abc123"; Opened] eq_refl).
Defined.

(** X17: in every state reached from process start, each pending
    reconnect timer has a delay of 5000 ms (after a close) or 10000 ms
    (after a failed set-up); no other delay is ever scheduled. *)
Theorem reconnect_delays_are_fixed (w : World) (es : list event) (d : Z) :
  In d (timers (run w initial es)) -> d = 5000%Z \/ d = 10000%Z.
Proof.
  assert (Hgen : forall es st,
             Forall (fun d => d = 5000%Z \/ d = 10000%Z) (timers st) ->
             Forall (fun d => d = 5000%Z \/ d = 10000%Z) (timers (run w st es))).
  { clear es. induction es as [|e rest IH]; intros st H; [exact H|].
    rewrite run_cons. apply IH. apply step_delays. exact H. }
  intros Hin.
  pose proof (Hgen es initial (Forall_nil _)) as Hall.
  rewrite Forall_forall in Hall. exact (Hall d Hin).
Qed.

Lemma reconnect_delays_are_fixed_witness :
  let es := [Closed (Some 428%Z); TimerFired 0 false; Closed None] in
  In 10000%Z (timers (run Scenario.plain initial es)) /\
  (10000 = 5000 \/ 10000 = 10000)%Z.
Proof.
  assert (Hin : In 10000%Z (timers (run Scenario.plain initial
                   [Closed (Some 428%Z); TimerFired 0 false; Closed None])))
    by (simpl; tauto).
  split; [exact Hin|].
  exact (reconnect_delays_are_fixed Scenario.plain _ 10000%Z Hin).
Defined.

(** X18: a set-up that keeps failing is retried without end: when a timer
    fires and [connectToWhatsApp] fails, a 10000 ms timer takes its place,
    so after any number of such failures as many timers are pending as
    before, and the connection flag and the QR are untouched. *)
Theorem failed_setup_is_retried (w : World) (n : nat) (st : state) :
  timers st <> [] ->
  let st' := run w st (repeat (TimerFired 0 false) n) in
  List.length (timers st') = List.length (timers st)
  /\ isConnected st' = isConnected st
  /\ currentQR st' = currentQR st
  /\ (0 < n -> hd_error (timers st') = Some 10000%Z)%nat.
Proof.
  revert st. induction n as [|n IH]; intros st Hpending; cbn zeta.
  - repeat split. intros H. inversion H.
  - destruct (timers st) as [|d rest] eqn:Ht; [contradiction|].
    simpl repeat. rewrite run_cons.
    assert (Hstep : step w st (TimerFired 0 false)
                    = {| isConnected := isConnected st;
                         currentQR := currentQR st;
                         timers := 10000%Z :: rest |}).
    { simpl. rewrite Ht. reflexivity. }
    rewrite Hstep.
    destruct (IH {| isConnected := isConnected st;
                    currentQR := currentQR st;
                    timers := 10000%Z :: rest |})
      as [Hlen [Hconn [Hqr Hhd]]]; [discriminate|].
    cbn zeta in *. simpl in Hlen, Hconn, Hqr.
    split; [rewrite Hlen; reflexivity|]. split; [exact Hconn|].
    split; [exact Hqr|]. intros _.
    destruct n as [|n']; [reflexivity|]. apply Hhd. lia.
Qed.

Lemma failed_setup_is_retried_witness :
  let st := run Scenario.plain initial [Closed (Some 428%Z)] in
  timers st <> [] /\
  List.length (timers (run Scenario.plain st (repeat (TimerFired 0 false) 3))) = 1%nat.
Proof.
  assert (Hne : timers (run Scenario.plain initial [Closed (Some 428%Z)]) <> [])
    by discriminate.
  split; [exact Hne|].
  exact (proj1 (failed_setup_is_retried Scenario.plain 3
                  (run Scenario.plain initial [Closed (Some 428%Z)]) Hne)).
Defined.

(** X19: only a close update with a non-logout code schedules a timer
    from the update handler: every other update (open, a pairing
    challenge, a logged-out close, anything else) leaves the pending
    timers as they are. *)
Theorem only_close_schedules_reconnect (w : World) (u : update) (st : state) :
  (connection u = Some "close" /\ shouldReconnect (statusCode u) = true
   /\ timers (onConnectionUpdate w u st) = 5000%Z :: timers st)
  \/ timers (onConnectionUpdate w u st) = timers st.
Proof.
  unfold onConnectionUpdate. destruct (connection u) as [c|].
  - destruct (c =? "close") eqn:Hclose.
    + apply String.eqb_eq in Hclose. subst c. simpl. rewrite storeQR_timers.
      destruct (shouldReconnect (statusCode u)); [left|right]; auto.
    + right. destruct (c =? "open"); simpl; apply storeQR_timers.
  - right. apply storeQR_timers.
Qed.

(* ================================================================== *)
(** ** The status endpoints and the status page *)
(* ================================================================== *)

Import Surface.

Lemma send_503_iff_disconnected (w : World) (st : state) (body : value) :
  body <> JUndefined -> body <> JNull ->
  status (snd (post_send w st body)) = 503%Z <-> isConnected st = false.
Proof.
  intros Hu Hn. unfold post_send.
  rewrite (get_of_defined body "to" Hu Hn), bind_ret.
  rewrite (get_of_defined body "text" Hu Hn), bind_ret.
  destruct (isConnected st); cbn [negb]; [|split; reflexivity].
  split; [|discriminate].
  destruct (negb (truthy (prop body "to")) || negb (truthy (prop body "text")));
    [discriminate|].
  pose proof (formatTo_silent (prop body "to")) as Hs.
  destruct (formatTo (prop body "to")) as [t [jid|e]]; simpl in Hs; subst t;
    [|discriminate].
  fold (ret jid). rewrite bind_ret. unfold call_sendMessage.
  destruct (sock_sendMessage w jid (prop body "text")); [simpl; discriminate|].
  destruct (prop body "text"); simpl; discriminate.
Qed.

(** X20: the status endpoints agree with each other and with [/send]:
    [/health] reports "connected" exactly when [/status] and [/qr-status]
    report [connected: true], and a [/send] request with a parsed body is
    answered 503 exactly when [/health] reports "disconnected". *)
Theorem status_endpoints_agree
  (w : World) (st : state) (uptime body : value) :
  body <> JUndefined -> body <> JNull ->
  (prop (json (health w st)) "whatsapp" = JStr "connected"
   <-> prop (json (qr_status w st)) "connected" = JBool true)
  /\ prop (json (get_status w uptime st)) "connected"
     = prop (json (qr_status w st)) "connected"
  /\ (status (snd (post_send w st body)) = 503%Z
      <-> prop (json (health w st)) "whatsapp" = JStr "disconnected").
Proof.
  intros Hu Hn. split; [|split].
  - unfold health, qr_status. simpl.
    destruct (isConnected st); split; intros H; try reflexivity; discriminate H.
  - reflexivity.
  - rewrite (send_503_iff_disconnected w st body Hu Hn).
    unfold health. simpl.
    destruct (isConnected st); split; intros H; try reflexivity; discriminate H.
Qed.

Lemma status_endpoints_agree_witness :
  let body := JObj [("to", JStr "555"); ("text", JStr "ping")] in
  body <> JUndefined /\ body <> JNull /\
  (status (snd (post_send Scenario.plain initial body)) = 503%Z
   <-> prop (json (health Scenario.plain initial)) "whatsapp" = JStr "disconnected").
Proof.
  assert (Hu : JObj [("to", JStr "555"); ("text", JStr "ping")] <> JUndefined)
    by discriminate.
  assert (Hn : JObj [("to", JStr "555"); ("text", JStr "ping")] <> JNull)
    by discriminate.
  split; [exact Hu|]. split; [exact Hn|].
  exact (proj2 (proj2 (status_endpoints_agree Scenario.plain initial JNull
                         (JObj [("to", JStr "555"); ("text", JStr "ping")]) Hu Hn))).
Defined.

(** X21: after a poll of [/qr-status], the status page displays the QR
    container exactly when the bridge is not connected and holds a
    non-empty QR, and then the image shown is that QR; when the bridge is
    connected the page says so and hides the container, even if a QR is
    still stored.  A poll that fails replaces the status only: what the QR
    container showed before stays. *)
Theorem page_shows_qr_only_when_offline (w : World) (st : state) (p : page) :
  (qrDisplayed (poll w st p) = true
   <-> isConnected st = false
       /\ exists url, currentQR st = Some url /\ url <> "")
  /\ (qrDisplayed (poll w st p) = true ->
      shown (poll w st p) = ScanBanner
      /\ qrSrc (poll w st p) = Some (qr_value (currentQR st)))
  /\ (isConnected st = true ->
      shown (poll w st p) = ConnectedBanner /\ qrDisplayed (poll w st p) = false)
  /\ (shown (checkStatus p None) = ErrorBanner
      /\ qrDisplayed (checkStatus p None) = qrDisplayed p
      /\ qrSrc (checkStatus p None) = qrSrc p).
Proof.
  unfold poll, checkStatus, qr_status. simpl.
  destruct (isConnected st); simpl.
  - split; [split; [discriminate|intros [H _]; discriminate H]|].
    split; [discriminate|]. split; [split; reflexivity|].
    split; [reflexivity|split; reflexivity].
  - destruct (currentQR st) as [url|]; simpl.
    + destruct (url =? "") eqn:Hurl; simpl.
      * apply String.eqb_eq in Hurl. subst url.
        split; [split; [discriminate|]|].
        { intros [_ [url [[= <-] Hne]]]. exfalso. apply Hne. reflexivity. }
        split; [discriminate|]. split; [discriminate|].
        split; [reflexivity|split; reflexivity].
      * apply String.eqb_neq in Hurl.
        split; [split; [intros _; split; [reflexivity|exists url; split; auto]
                       |reflexivity]|].
        split; [intros _; split; reflexivity|]. split; [discriminate|].
        split; [reflexivity|split; reflexivity].
    + split; [split; [discriminate|intros [_ [url [H _]]]; discriminate H]|].
      split; [discriminate|]. split; [discriminate|].
      split; [reflexivity|split; reflexivity].
Qed.

Lemma page_shows_qr_only_when_offline_witness :
  let pairing := run Scenario.plain initial [PairingChallengeIssued "abc123"] in
  let both := run Scenario.plain initial [Opened; PairingChallengeIssued "abc123"] in
  qrDisplayed (poll Scenario.plain pairing served) = true /\
  qrSrc (poll Scenario.plain pairing served)
  = Some (JStr "data:image/png;base64,abc123") /\
  isConnected both = true /\
  currentQR both = Some "data:image/png;base64,abc123" /\
  qrDisplayed (poll Scenario.plain both served) = false.
Proof.
  assert (Hshown : qrDisplayed (poll Scenario.plain
                      (run Scenario.plain initial [PairingChallengeIssued "abc123"])
                      served) = true) by reflexivity.
  split; [exact Hshown|]. split.
  - exact (proj2 (proj1 (proj2 (page_shows_qr_only_when_offline Scenario.plain
                                  (run Scenario.plain initial
                                     [PairingChallengeIssued "abc123"])
                                  served)) Hshown)).
  - split; [reflexivity|]. split; [reflexivity|].
    exact (proj2 (proj1 (proj2 (proj2 (page_shows_qr_only_when_offline Scenario.plain
                                         (run Scenario.plain initial
                                            [Opened; PairingChallengeIssued "abc123"])
                                         served))) eq_refl)).
Defined.

(* ================================================================== *)
(** ** Further properties of the resolver and of the webhook body *)
(* ================================================================== *)

(** X22: [resolve] yields [null] or a truthy value, never a falsy value
    other than [null]; a falsy answer (null, false, 0, the empty string)
    resolves to [null]. *)
Theorem resolve_null_or_truthy (r : value) :
  (resolve r = JNull \/ truthy (resolve r) = true)
  /\ (truthy r = false -> resolve r = JNull).
Proof.
  unfold resolve. destruct (truthy r) eqn:Hr.
  - split; [|discriminate].
    destruct (truthy (prop r "reply")) eqn:H1; [right; exact H1|].
    destruct (truthy (prop r "message")) eqn:H2; [right; exact H2|].
    destruct (truthy (prop r "text")) eqn:H3; [right; exact H3|].
    destruct r; try (left; reflexivity); try (right; exact Hr);
      (destruct (truthy (prop _ "response")) eqn:H4; [right; exact H4|]);
      (destruct (truthy (prop _ "data")) eqn:H5; [right; exact H5|]);
      left; reflexivity.
  - split; [left; reflexivity|reflexivity].
Qed.

Lemma resolve_null_or_truthy_witness :
  truthy (JNum 0) = false /\ resolve (JNum 0) = JNull.
Proof.
  split; [reflexivity|].
  exact (proj2 (resolve_null_or_truthy (JNum 0)) eq_refl).
Defined.

(** X23: a non-empty string answer is the reply itself, unchanged; a
    number, a boolean or an array resolves to [null]; so does an object
    that has none of the fields reply, message, text, response and data. *)
Theorem resolve_plain_answers :
  (forall s, s <> "" -> resolve (JStr s) = JStr s)
  /\ (forall r,
        (forall fields, r <> JObj fields) -> (forall s, r <> JStr s) ->
        resolve r = JNull)
  /\ (forall fields,
        lookup "reply" fields = None -> lookup "message" fields = None ->
        lookup "text" fields = None -> lookup "response" fields = None ->
        lookup "data" fields = None ->
        resolve (JObj fields) = JNull).
Proof.
  split; [|split].
  - intros s Hne. apply String.eqb_neq in Hne.
    unfold resolve. simpl. rewrite Hne. reflexivity.
  - intros r Hobj Hstr. unfold resolve.
    destruct r; simpl; try reflexivity.
    + destruct b; reflexivity.
    + destruct (n =? 0)%Z; reflexivity.
    + exfalso. exact (Hstr _ eq_refl).
    + exfalso. exact (Hobj _ eq_refl).
  - intros fields H1 H2 H3 H4 H5. unfold resolve. simpl.
    rewrite H1, H2, H3, H4, H5. reflexivity.
Qed.

Lemma resolve_plain_answers_witness :
  "direct string reply" <> "" /\
  resolve (JStr "direct string reply") = JStr "direct string reply" /\
  resolve (JObj [("status", JStr "ok")]) = JNull.
Proof.
  assert (Hne : "direct string reply" <> "") by discriminate.
  split; [exact Hne|]. split.
  - exact (proj1 resolve_plain_answers "direct string reply" Hne).
  - exact (proj2 (proj2 resolve_plain_answers) [("status", JStr "ok")]
             eq_refl eq_refl eq_refl eq_refl eq_refl).
Defined.

Section Inversion.

Context {A B : Type}.

Lemma bind_value_inv (m : M A) (f : A -> M B) (t : list effect) (b : B) :
  bind m f = (t, Value b) ->
  exists t1 a t2, m = (t1, Value a) /\ f a = (t2, Value b) /\ t = (t1 ++ t2)%list.
Proof.
  destruct m as [t1 [a|e]]; simpl; [|discriminate].
  destruct (f a) as [t2 r] eqn:Hf. intros [= <- ->].
  exists t1, a, t2. repeat split. exact Hf.
Qed.

End Inversion.

Lemma get_value_inv (v : value) (k : string) (t : list effect) (x : value) :
  get v k = (t, Value x) -> x = prop v k.
Proof. destruct v; simpl; intros [= _ <-]; reflexivity. Qed.

Lemma str_method_value_inv (v : value) (method : string) (t : list effect) (s : string) :
  str_method v method = (t, Value s) -> v = JStr s.
Proof. destruct v; simpl; intros H; try discriminate H. injection H as _ <-. reflexivity. Qed.

Lemma extractText_some_inv (content messageType : value) (t : list effect) (v : value) :
  extractText content messageType = (t, Value (Some v)) ->
  is_str messageType "conversation" = true
  \/ is_str messageType "extendedTextMessage" = true
  \/ is_str messageType "imageMessage" = true.
Proof.
  unfold extractText.
  destruct (is_str messageType "conversation"); [intros _; left; reflexivity|].
  destruct (is_str messageType "extendedTextMessage");
    [intros _; right; left; reflexivity|].
  destruct (is_str messageType "imageMessage");
    [intros _; right; right; reflexivity|].
  discriminate.
Qed.

(** What a normalized message holds, whatever the message was. *)
Lemma normalize_some_inv (w : World) (message : value) (t : list effect)
  (md : messageData) :
  normalize w message = (t, Value (Some md)) ->
  (exists sender, prop (prop message "key") "remoteJid" = JStr sender
                  /\ from md = cleanFrom sender)
  /\ (exists body, text md = trim body)
  /\ timestamp md = now w
  /\ messageId md = prop (prop message "key") "id"
  /\ (messageType md = "conversation"
      \/ messageType md = "extendedTextMessage"
      \/ messageType md = "imageMessage").
Proof.
  unfold normalize. intros H.
  apply bind_value_inv in H as [t1 [key [t2 [Hkey [H _]]]]].
  apply get_value_inv in Hkey. subst key.
  apply bind_value_inv in H as [t3 [sender [t4 [Hjid [H _]]]]].
  apply get_value_inv in Hjid. subst sender.
  apply bind_value_inv in H as [t5 [content [t6 [Hcontent [H _]]]]].
  apply bind_value_inv in H as [t7 [found [t8 [Hfound [H _]]]]].
  destruct found as [v|]; [|discriminate H].
  apply extractText_some_inv in Hfound.
  apply bind_value_inv in H as [t9 [s [t10 [Hs [H _]]]]].
  apply str_method_value_inv in Hs.
  apply bind_value_inv in H as [t11 [body [t12 [Hbody [H _]]]]].
  apply bind_value_inv in H as [t13 [id [t14 [Hid [H _]]]]].
  apply get_value_inv in Hid. subst id.
  injection H as _ <-. simpl.
  split; [exists s; split; [exact Hs|reflexivity]|].
  split; [exists body; reflexivity|].
  split; [reflexivity|]. split; [reflexivity|].
  destruct Hfound as [Hk|[Hk|Hk]]; apply is_str_inv in Hk; rewrite Hk; auto.
Qed.

(** X24: every call [handleIncomingMessage] makes to the webhook goes to
    the configured URL and carries a body whose text is trimmed (no white
    space at either end), whose [from] is the cleaned string
    [key.remoteJid] of the message, whose [messageId] is its [key.id], and
    whose [messageType] is one of the three recognized types. *)
Theorem webhook_body_is_normalized
  (w : World) (st : state) (message : value) (url : string) (md : messageData) :
  In (Post url md) (trace (handleIncomingMessage w st message)) ->
  url = n8nWebhookUrl
  /\ is_trimmed (text md)
  /\ (exists sender, prop (prop message "key") "remoteJid" = JStr sender
                     /\ from md = cleanFrom sender)
  /\ messageId md = prop (prop message "key") "id"
  /\ (messageType md = "conversation"
      \/ messageType md = "extendedTextMessage"
      \/ messageType md = "imageMessage").
Proof.
  pose proof (normalize_silent w message) as Hsilent.
  destruct (normalize w message) as [t [[md'|]|e]] eqn:Hn; simpl in Hsilent; subst t.
  - destruct (handle_forwards_once w st message md' Hn) as [rest [-> Hp]].
    intros [H|[H|Hin]]; [discriminate H| |].
    + injection H as <- <-.
      destruct (normalize_some_inv w message _ _ Hn)
        as [Hfrom [[body Hbody] [_ [Hid Htype]]]].
      split; [reflexivity|]. split; [rewrite Hbody; apply trim_is_trimmed|].
      split; [exact Hfrom|]. split; [exact Hid|exact Htype].
    + exfalso. clear - Hp Hin.
      induction rest as [|e rest IH]; [exact Hin|].
      simpl in Hp. destruct Hin as [->|Hin]; [discriminate Hp|].
      destruct (is_post e); [discriminate Hp|]. exact (IH Hp Hin).
  - rewrite (handle_dropped w st message Hn). intros [].
  - unfold handleIncomingMessage. rewrite Hn. simpl.
    intros [H|[]]. discriminate H.
Qed.

Lemma webhook_body_is_normalized_witness :
  let message := Scenario.envelope "123@c.us" false
                   (JObj [("extendedTextMessage", JObj [("text", JStr " hi  ")])]) in
  let md := {| from := "123"; text := "hi";
               timestamp := "2024-05-01T12:00:00.000Z";
               messageId := JStr "3EB0A1";
               messageType := "extendedTextMessage" |} in
  In (Post n8nWebhookUrl md)
     (trace (handleIncomingMessage Scenario.plain Scenario.connected message)) /\
  is_trimmed (text md).
Proof.
  assert (Hin : In (Post n8nWebhookUrl
                      {| from := "123"; text := "hi";
                         timestamp := "2024-05-01T12:00:00.000Z";
                         messageId := JStr "3EB0A1";
                         messageType := "extendedTextMessage" |})
                  (trace (handleIncomingMessage Scenario.plain Scenario.connected
                            (Scenario.envelope "123@c.us" false
                               (JObj [("extendedTextMessage",
                                       JObj [("text", JStr " hi  ")])])))))
    by (simpl; tauto).
  split; [exact Hin|].
  exact (proj1 (proj2 (webhook_body_is_normalized Scenario.plain Scenario.connected
                         _ _ _ Hin))).
Defined.
